(** * SyncTrack: the cycle-aware scheduling engine

    A shallow embedding of
      - [backend/models/hormonal_cycle.py]  (HormonalCycleManager),
      - [backend/services/calendar_service.py]  (CalendarService),
      - [simple_backend.py]  (get_current_phase),
    followed by the properties of the engine.

    Conventions.
      - Python [int] is [Z]; [//] and [%] are [Z.div] and [Z.modulo] (both
        floor, the remainder has the sign of the divisor, as in Python).  A zero
        divisor raises in Python; the statements that divide carry
        [cycle_length <> 0], which pydantic's [Field(ge=21, le=35)] gives.
      - Python [float] is IEEE binary64: the kernel's [float].
      - A [datetime] is its wall-clock reading in microseconds together with
        its UTC offset, absent for a naive value.  The range of years
        (1..9999) is not modelled.
      - Code that can raise returns a [result]. *)

From Stdlib Require Import ZArith List Bool Lia String Floats Uint63 Sorted Permutation.
Import ListNotations.

Set Warnings "-inexact-float".
Local Open Scope Z_scope.

(** ** Exceptions *)

Inductive exn : Type :=
| TypeError    (* comparison of a naive with an aware datetime *)
| ValueError.  (* hour outside 0..23 *)

Inductive result (A : Type) : Type :=
| Ok (a : A)
| Raise (e : exn).

Arguments Ok {A} a.
Arguments Raise {A} e.

Definition bind {A B : Type} (m : result A) (k : A -> result B) : result B :=
  match m with
  | Ok a => k a
  | Raise e => Raise e
  end.

Notation "x <- m ;; k" := (bind m (fun x => k))
  (at level 61, m at next level, right associativity).

(** ** datetime *)

Definition US_PER_MINUTE : Z := 60000000.
Definition US_PER_HOUR : Z := 3600000000.
Definition US_PER_DAY : Z := 86400000000.

(** [dt_us]: microseconds of local wall-clock time since the midnight that
    starts proleptic Gregorian ordinal 0 (so 0001-01-01T00:00 is one day in);
    [dt_tz]: the UTC offset in minutes of an aware value, [None] for a naive
    one. *)
Record datetime : Type := mk_datetime { dt_us : Z; dt_tz : option Z }.

(** [d.date()], as [date.toordinal()]. *)
Definition date (d : datetime) : Z := dt_us d / US_PER_DAY.

(** [date.weekday()]: Monday is 0, Sunday is 6. *)
Definition weekday (ordinal : Z) : Z := (ordinal + 6) mod 7.

(** [d + timedelta(days=n)] and [d + timedelta(minutes=m)]. *)
Definition add_days (d : datetime) (n : Z) : datetime :=
  mk_datetime (dt_us d + n * US_PER_DAY) (dt_tz d).

Definition add_minutes (d : datetime) (m : Z) : datetime :=
  mk_datetime (dt_us d + m * US_PER_MINUTE) (dt_tz d).

(** [d.replace(hour=h, minute=0, second=0, microsecond=0)]. *)
Definition replace_hour (d : datetime) (h : Z) : result datetime :=
  if (0 <=? h) && (h <=? 23)
  then Ok (mk_datetime (date d * US_PER_DAY + h * US_PER_HOUR) (dt_tz d))
  else Raise ValueError.

(** [datetime.combine(day, datetime.min.time().replace(hour=h))]: naive. *)
Definition combine_hour (ordinal h : Z) : result datetime :=
  if (0 <=? h) && (h <=? 23)
  then Ok (mk_datetime (ordinal * US_PER_DAY + h * US_PER_HOUR) None)
  else Raise ValueError.

(** [a < b] on datetimes: wall-clock order between naive values, order of the
    instants between aware ones, TypeError between one of each. *)
Definition dt_lt (a b : datetime) : result bool :=
  match dt_tz a, dt_tz b with
  | None, None => Ok (dt_us a <? dt_us b)
  | Some oa, Some ob =>
      Ok (dt_us a - oa * US_PER_MINUTE <? dt_us b - ob * US_PER_MINUTE)
  | _, _ => Raise TypeError
  end.

(** [a > b] is [b < a]. *)
Definition dt_gt (a b : datetime) : result bool := dt_lt b a.

(** [date(y, m, d).toordinal()], for writing examples. *)
Definition is_leap (y : Z) : bool :=
  (y mod 4 =? 0) && (negb (y mod 100 =? 0) || (y mod 400 =? 0)).

Definition days_before_year (y : Z) : Z :=
  let p := y - 1 in p * 365 + p / 4 - p / 100 + p / 400.

Definition days_before_month (y m : Z) : Z :=
  nth (Z.to_nat (m - 1)) [0; 31; 59; 90; 120; 151; 181; 212; 243; 273; 304; 334] 0
  + (if (2 <? m) && is_leap y then 1 else 0).

Definition ymd (y m d : Z) : Z := days_before_year y + days_before_month y m + d.

(** A naive datetime at [h]:[mi] on the day with the given ordinal. *)
Definition naive_at (ordinal h mi : Z) : datetime :=
  mk_datetime (ordinal * US_PER_DAY + h * US_PER_HOUR + mi * US_PER_MINUTE) None.

(** An aware datetime in UTC, as parsed from an RFC 3339 string that ends in Z. *)
Definition utc_at (ordinal h mi : Z) : datetime :=
  mk_datetime (ordinal * US_PER_DAY + h * US_PER_HOUR + mi * US_PER_MINUTE) (Some 0).

(** ** models/hormonal_cycle.py: the data model *)

Inductive CyclePhase : Type := MENSTRUAL | FOLLICULAR | OVULATORY | LUTEAL.

Inductive TaskType : Type :=
| CREATIVE | ANALYTICAL | PHYSICAL | SOCIAL | ADMINISTRATIVE
| STRATEGIC | DETAIL_ORIENTED | COMMUNICATION | LEARNING | REFLECTION.

Definition CyclePhase_eqb (a b : CyclePhase) : bool :=
  match a, b with
  | MENSTRUAL, MENSTRUAL | FOLLICULAR, FOLLICULAR
  | OVULATORY, OVULATORY | LUTEAL, LUTEAL => true
  | _, _ => false
  end.

Definition TaskType_eqb (a b : TaskType) : bool :=
  match a, b with
  | CREATIVE, CREATIVE | ANALYTICAL, ANALYTICAL | PHYSICAL, PHYSICAL
  | SOCIAL, SOCIAL | ADMINISTRATIVE, ADMINISTRATIVE | STRATEGIC, STRATEGIC
  | DETAIL_ORIENTED, DETAIL_ORIENTED | COMMUNICATION, COMMUNICATION
  | LEARNING, LEARNING | REFLECTION, REFLECTION => true
  | _, _ => false
  end.

(** [phase.value] and [task_type.value]. *)
Definition CyclePhase_value (p : CyclePhase) : string :=
  match p with
  | MENSTRUAL => "menstrual"
  | FOLLICULAR => "follicular"
  | OVULATORY => "ovulatory"
  | LUTEAL => "luteal"
  end.

Definition TaskType_value (t : TaskType) : string :=
  match t with
  | CREATIVE => "creative"
  | ANALYTICAL => "analytical"
  | PHYSICAL => "physical"
  | SOCIAL => "social"
  | ADMINISTRATIVE => "administrative"
  | STRATEGIC => "strategic"
  | DETAIL_ORIENTED => "detail_oriented"
  | COMMUNICATION => "communication"
  | LEARNING => "learning"
  | REFLECTION => "reflection"
  end.

Record TaskOptimization : Type := mk_TaskOptimization {
  opt_task_type : TaskType;
  optimal_phases : list CyclePhase;
  opt_energy_level : Z;
  opt_focus_level : Z
}.

(** The [characteristics] strings play no part in the engine and are left out. *)
Record HormonalProfile : Type := mk_HormonalProfile {
  phase : CyclePhase;
  day_range : Z * Z;
  energy_level : Z;
  focus_level : Z;
  creativity_level : Z;
  social_energy : Z;
  analytical_thinking : Z;
  physical_energy : Z
}.

Record CycleData : Type := mk_CycleData {
  user_id : string;
  last_period_start : datetime;
  cycle_length : Z;
  period_length : Z
}.

Record Task : Type := mk_Task {
  title : string;
  description : option string;
  task_type : TaskType;
  estimated_duration : Z;
  priority : Z
}.

(** What pydantic checks when the values are built. *)
Definition valid_cycle_data (c : CycleData) : Prop :=
  21 <= cycle_length c <= 35 /\ 3 <= period_length c <= 8.

Definition valid_task (t : Task) : Prop := 1 <= priority t <= 5.

(** ** HormonalCycleManager: the static tables *)

Definition menstrual_profile : HormonalProfile :=
  mk_HormonalProfile MENSTRUAL (1, 5) 3 6 4 2 7 2.
Definition follicular_profile : HormonalProfile :=
  mk_HormonalProfile FOLLICULAR (6, 13) 7 8 9 6 8 7.
Definition ovulatory_profile : HormonalProfile :=
  mk_HormonalProfile OVULATORY (14, 16) 9 7 8 10 6 9.
Definition luteal_profile : HormonalProfile :=
  mk_HormonalProfile LUTEAL (17, 28) 5 9 5 4 9 4.

(** [PHASE_PROFILES.items()], in insertion order. *)
Definition PHASE_PROFILES_items : list (CyclePhase * HormonalProfile) :=
  [ (MENSTRUAL, menstrual_profile);
    (FOLLICULAR, follicular_profile);
    (OVULATORY, ovulatory_profile);
    (LUTEAL, luteal_profile) ].

(** [PHASE_PROFILES[phase]]: the dict has every member of the enum as a key. *)
Definition PHASE_PROFILES (p : CyclePhase) : HormonalProfile :=
  match p with
  | MENSTRUAL => menstrual_profile
  | FOLLICULAR => follicular_profile
  | OVULATORY => ovulatory_profile
  | LUTEAL => luteal_profile
  end.

Definition TASK_OPTIMIZATIONS : list TaskOptimization :=
  [ mk_TaskOptimization CREATIVE [FOLLICULAR; OVULATORY] 8 7;
    mk_TaskOptimization ANALYTICAL [MENSTRUAL; LUTEAL] 6 9;
    mk_TaskOptimization PHYSICAL [FOLLICULAR; OVULATORY] 8 6;
    mk_TaskOptimization SOCIAL [OVULATORY] 9 7;
    mk_TaskOptimization ADMINISTRATIVE [LUTEAL; MENSTRUAL] 5 9;
    mk_TaskOptimization STRATEGIC [MENSTRUAL; FOLLICULAR] 6 8;
    mk_TaskOptimization DETAIL_ORIENTED [LUTEAL; MENSTRUAL] 5 10;
    mk_TaskOptimization COMMUNICATION [OVULATORY; FOLLICULAR] 8 7;
    mk_TaskOptimization LEARNING [FOLLICULAR] 7 8;
    mk_TaskOptimization REFLECTION [MENSTRUAL] 3 8 ].

(** ** HormonalCycleManager: phase resolution *)

(** [profile.day_range[0] <= cycle_day <= profile.day_range[1]]. *)
Definition in_day_range (profile : HormonalProfile) (cycle_day : Z) : bool :=
  (fst (day_range profile) <=? cycle_day) && (cycle_day <=? snd (day_range profile)).

(** The loop [for phase, profile in items: if ...: return phase]; [None] when
    the loop runs to its end. *)
Fixpoint first_matching_phase (items : list (CyclePhase * HormonalProfile))
    (cycle_day : Z) : option CyclePhase :=
  match items with
  | [] => None
  | (ph, profile) :: rest =>
      if in_day_range profile cycle_day then Some ph
      else first_matching_phase rest cycle_day
  end.

(** The loop followed by the fallback [return CyclePhase.LUTEAL]. *)
Definition phase_of_cycle_day (cycle_day : Z) : CyclePhase :=
  match first_matching_phase PHASE_PROFILES_items cycle_day with
  | Some ph => ph
  | None => LUTEAL
  end.

(** [cycle_day] as [get_current_phase] computes it, [today] being
    [datetime.now().date()]. *)
Definition current_cycle_day (today : Z) (cycle_data : CycleData) : Z :=
  let last_period := date (last_period_start cycle_data) in
  let days_since_period := today - last_period in
  days_since_period mod cycle_length cycle_data + 1.

Definition get_current_phase (today : Z) (cycle_data : CycleData) : CyclePhase :=
  phase_of_cycle_day (current_cycle_day today cycle_data).

(** [cycle_day] as [get_phase_for_date] computes it. *)
Definition cycle_day_for_date (cycle_data : CycleData) (target_date : datetime) : Z :=
  let last_period := date (last_period_start cycle_data) in
  let target := date target_date in
  let days_since_period := target - last_period in
  let days_since_period :=
    if days_since_period <? 0 then
      let cycles_back := Z.abs days_since_period / cycle_length cycle_data + 1 in
      let adjusted_start := last_period - cycles_back * cycle_length cycle_data in
      target - adjusted_start
    else days_since_period in
  days_since_period mod cycle_length cycle_data + 1.

Definition get_phase_for_date (cycle_data : CycleData) (target_date : datetime)
    : CyclePhase :=
  phase_of_cycle_day (cycle_day_for_date cycle_data target_date).

(** ** simple_backend.py: get_current_phase

    The module keeps its own table, keyed by the phase's name, and its own
    [CycleData] with the same fields and no bounds. *)

Module SimpleBackend.

Record Profile : Type := mk_Profile {
  day_range : Z * Z;
  energy_level : Z;
  focus_level : Z
}.

Definition PHASE_PROFILES_items : list (string * Profile) :=
  [ ("menstrual"%string, mk_Profile (1, 5) 3 6);
    ("follicular"%string, mk_Profile (6, 13) 7 8);
    ("ovulatory"%string, mk_Profile (14, 16) 9 7);
    ("luteal"%string, mk_Profile (17, 28) 5 9) ].

Fixpoint first_matching_phase (items : list (string * Profile)) (cycle_day : Z)
    : option string :=
  match items with
  | [] => None
  | (name, profile) :: rest =>
      if (fst (day_range profile) <=? cycle_day) && (cycle_day <=? snd (day_range profile))
      then Some name
      else first_matching_phase rest cycle_day
  end.

Definition get_current_phase (today : Z) (cycle_data : CycleData) : string :=
  let last_period := date (last_period_start cycle_data) in
  let days_since_period := today - last_period in
  let cycle_day := days_since_period mod cycle_length cycle_data + 1 in
  match first_matching_phase PHASE_PROFILES_items cycle_day with
  | Some name => name
  | None => "luteal"%string
  end.

End SimpleBackend.

(** ** HormonalCycleManager: scoring *)

(** [float(n)] for an [int] in [0, 2^63): used at the levels of the profiles,
    at 10 and at [priority - 1] of a valid task. *)
Definition float_of_int (n : Z) : float := PrimFloat.of_uint63 (Uint63.of_Z n).

(** [min(a, b)]: the first argument unless the second is smaller. *)
Definition py_min (a b : float) : float := if (b <? a)%float then b else a.

(** The loop [for opt in TASK_OPTIMIZATIONS: if opt.task_type == t: ...; break]. *)
Fixpoint find_optimization (opts : list TaskOptimization) (t : TaskType)
    : option TaskOptimization :=
  match opts with
  | [] => None
  | opt :: rest =>
      if TaskType_eqb (opt_task_type opt) t then Some opt
      else find_optimization rest t
  end.

(** [phase in phases]. *)
Definition phase_in (ph : CyclePhase) (phases : list CyclePhase) : bool :=
  existsb (CyclePhase_eqb ph) phases.

Definition get_optimal_scheduling_score (task : Task) (target_date : datetime)
    (cycle_data : CycleData) : float :=
  let ph := get_phase_for_date cycle_data target_date in
  let phase_profile := PHASE_PROFILES ph in
  match find_optimization TASK_OPTIMIZATIONS (task_type task) with
  | None => 0.5%float
  | Some task_opt =>
      let base_score := if phase_in ph (optimal_phases task_opt) then 0.8 else 0.3 in
      let energy_match := float_of_int (energy_level phase_profile) / float_of_int 10 in
      let focus_match := float_of_int (focus_level phase_profile) / float_of_int 10 in
      let phase_weight := 0.5 in
      let energy_weight := 0.3 in
      let focus_weight := 0.2 in
      let final_score :=
        base_score * phase_weight + energy_match * energy_weight
        + focus_match * focus_weight in
      let priority_boost := float_of_int (priority task - 1) * 0.1 in
      py_min 1.0 (final_score + priority_boost)
  end%float.

(** ** HormonalCycleManager: ranking *)

(** What the process reads without being given it: the system clock, as the
    naive local time [datetime.now()] returns, and the Google Calendar client
    [self.service] with the state [R] of the remote calendar behind it
    ([None]: the client could not be built). *)
Record World (R : Type) : Type := mk_World {
  wall_clock : Z;
  service : option R
}.

Arguments mk_World {R} wall_clock service.
Arguments wall_clock {R} w.
Arguments service {R} w.

(** [datetime.now()]. *)
Definition now {R : Type} (w : World R) : datetime := mk_datetime (wall_clock w) None.

(** [range(n)]. *)
Definition range (n : Z) : list Z := map Z.of_nat (seq 0 (Z.to_nat n)).

(** [range(a, b)]. *)
Definition range2 (a b : Z) : list Z := map (fun k => a + Z.of_nat k) (seq 0 (Z.to_nat (b - a))).

Definition Scored : Type := (datetime * float)%type.

(** [list.sort(key=lambda x: x[1], reverse=True)]: the sort is stable, and
    with [reverse=True] entries with equal keys keep their order.  The result
    is the one arrangement with these two properties; it is built here by
    insertion from the right, an entry passing the entries with a larger key. *)
Fixpoint insert_by_score (x : Scored) (l : list Scored) : list Scored :=
  match l with
  | [] => [x]
  | y :: rest =>
      if (snd x <? snd y)%float then y :: insert_by_score x rest
      else x :: y :: rest
  end.

Definition sort_by_score_desc (l : list Scored) : list Scored :=
  fold_right insert_by_score [] l.

(** The loop of [get_next_optimal_dates] from a given [today]. *)
Definition scored_dates (today : datetime) (task : Task) (cycle_data : CycleData)
    (days_ahead : Z) : list Scored :=
  map (fun i =>
         let target_date := add_days today i in
         (target_date, get_optimal_scheduling_score task target_date cycle_data))
      (range days_ahead).

Definition get_next_optimal_dates {R : Type} (w : World R) (task : Task)
    (cycle_data : CycleData) (days_ahead : Z) : list Scored :=
  let today := now w in
  let optimal_dates := scored_dates today task cycle_data days_ahead in
  firstn 10 (sort_by_score_desc optimal_dates).

(** ** services/calendar_service.py *)

(** The start or end of an item of [events().list()]: a [dateTime] string (it
    has a T in it) or a [date] string, each given by what
    [datetime.fromisoformat] makes of it once Z is replaced by +00:00.  The
    items are taken to be well formed, as the API gives them; a listing that
    raises is the [None] of [events_list] below. *)
Inductive RawTime : Type :=
| DateTimeStr (d : datetime)
| DateStr (ordinal : Z).

Record RawEvent : Type := mk_RawEvent {
  ev_start : RawTime;
  ev_end : RawTime;
  ev_summary : option string
}.

Record Busy : Type := mk_Busy {
  busy_start : datetime;
  busy_end : datetime;
  busy_summary : string
}.

Record Slot : Type := mk_Slot {
  slot_start : datetime;
  slot_end : datetime;
  slot_duration : Z
}.

(** The body [create_calendar_event] sends to [events().insert()]. *)
Record EventBody : Type := mk_EventBody {
  body_summary : string;
  body_description : string;
  body_start : datetime;
  body_end : datetime;
  body_colorId : string;
  body_taskType : string;
  body_priority : Z;
  body_reminders : option (list (string * Z))
}.

Record ScheduleResult : Type := mk_ScheduleResult {
  scheduled_time : datetime;
  end_time : datetime;
  cycle_score : float;
  hormonal_phase : string;
  calendar_event_id : option string;
  reasoning : string
}.

(** The Google Calendar client over a remote calendar in state [R].
    [events_list r timeMin timeMax] is [None] when the request raises;
    [events_insert r body] gives the calendar after the request and the id of
    the created event, [None] when the request raises or the answer has no
    id (both make [create_calendar_event] return [None]). *)
Record GoogleCalendar (R : Type) : Type := mk_GoogleCalendar {
  events_list : R -> datetime -> datetime -> option (list RawEvent);
  events_insert : R -> EventBody -> R * option string
}.

Arguments events_list {R} g r timeMin timeMax.
Arguments events_insert {R} g r body.

(** [datetime.fromisoformat(s.replace('Z', '+00:00'))]; a date string parses
    to naive midnight. *)
Definition fromisoformat (s : RawTime) : datetime :=
  match s with
  | DateTimeStr d => d
  | DateStr ordinal => mk_datetime (ordinal * US_PER_DAY) None
  end.

(** The loop of [get_calendar_availability] over the listed events: all-day
    events (no T in [start]) are passed over. *)
Fixpoint busy_of_events (events : list RawEvent) : list Busy :=
  match events with
  | [] => []
  | event :: rest =>
      match ev_start event with
      | DateTimeStr start_dt =>
          mk_Busy start_dt (fromisoformat (ev_end event))
                  (match ev_summary event with Some s => s | None => "Busy"%string end)
          :: busy_of_events rest
      | DateStr _ => busy_of_events rest
      end
  end.

(** [slot_start < busy['end'] and slot_end > busy['start']] over the busy
    times, up to the first conflict. *)
Fixpoint has_conflict (s e : datetime) (busy_times : list Busy) : result bool :=
  match busy_times with
  | [] => Ok false
  | busy :: rest =>
      starts_before <- dt_lt s (busy_end busy) ;;
      if starts_before : bool then
        ends_after <- dt_gt e (busy_start busy) ;;
        if ends_after : bool then Ok true else has_conflict s e rest
      else has_conflict s e rest
  end.

(** [for hour in range(working_hours[0], working_hours[1])] on one day. *)
Fixpoint slots_of_hours (busy_times : list Busy) (current_date : Z)
    (duration_minutes : Z) (hours : list Z) : result (list Slot) :=
  match hours with
  | [] => Ok []
  | hour :: rest =>
      s <- combine_hour current_date hour ;;
      let e := add_minutes s duration_minutes in
      conflict <- has_conflict s e busy_times ;;
      more <- slots_of_hours busy_times current_date duration_minutes rest ;;
      Ok (if conflict : bool then more else mk_Slot s e duration_minutes :: more)
  end.

(** [while current_date <= end_date_only], [days] being the number of days
    left. *)
Fixpoint slots_of_days (busy_times : list Busy) (current_date : Z) (days : nat)
    (duration_minutes : Z) (working_hours : Z * Z) : result (list Slot) :=
  match days with
  | O => Ok []
  | S days' =>
      if 5 <=? weekday current_date then
        slots_of_days busy_times (current_date + 1) days' duration_minutes working_hours
      else
        today <- slots_of_hours busy_times current_date duration_minutes
                   (range2 (fst working_hours) (snd working_hours)) ;;
        more <- slots_of_days busy_times (current_date + 1) days'
                   duration_minutes working_hours ;;
        Ok (today ++ more)
  end.

(** [_get_color_for_task_type]. *)
Definition get_color_for_task_type (t : TaskType) : string :=
  match t with
  | CREATIVE => "5"
  | ANALYTICAL => "9"
  | PHYSICAL => "11"
  | SOCIAL => "10"
  | ADMINISTRATIVE => "8"
  | STRATEGIC => "3"
  | DETAIL_ORIENTED => "6"
  | COMMUNICATION => "2"
  | LEARNING => "4"
  | REFLECTION => "1"
  end.

(** The dict [event] of [create_calendar_event]. *)
Definition event_body (task : Task) (scheduled_time : datetime) (duration : Z)
    : EventBody :=
  mk_EventBody
    (title task)
    (match description task with
     | Some d => if String.eqb d "" then "Optimally scheduled task during your hormonal cycle" else d
     | None => "Optimally scheduled task during your hormonal cycle"
     end)
    scheduled_time
    (add_minutes scheduled_time duration)
    (get_color_for_task_type (task_type task))
    (TaskType_value (task_type task))
    (priority task)
    (if 4 <=? priority task then Some [("email"%string, 24 * 60); ("popup"%string, 30)]
     else if 2 <=? priority task then Some [("popup"%string, 15)]
     else None).

Section CalendarService.

Context {R : Type} (api : GoogleCalendar R).

Definition get_calendar_availability (w : World R) (start_date end_date : datetime)
    : list Busy :=
  match service w with
  | None => []
  | Some r =>
      match events_list api r start_date end_date with
      | Some events => busy_of_events events
      | None => []
      end
  end.

Definition find_available_slots (w : World R) (start_date end_date : datetime)
    (duration_minutes : Z) (working_hours : Z * Z) : result (list Slot) :=
  let busy_times := get_calendar_availability w start_date end_date in
  let current_date := date start_date in
  let end_date_only := date end_date in
  slots_of_days busy_times current_date
    (Z.to_nat (end_date_only - current_date + 1)) duration_minutes working_hours.

(** [duration_minutes or task.estimated_duration]. *)
Definition duration_or (duration_minutes : option Z) (task : Task) : Z :=
  match duration_minutes with
  | Some d => if d =? 0 then estimated_duration task else d
  | None => estimated_duration task
  end.

Definition create_calendar_event (w : World R) (task : Task)
    (scheduled_time : datetime) (duration_minutes : option Z)
    : World R * option string :=
  match service w with
  | None => (w, None)
  | Some r =>
      let duration := duration_or duration_minutes task in
      let (r', id) := events_insert api r (event_body task scheduled_time duration) in
      (mk_World (wall_clock w) (Some r'), id)
  end.

(** The slots of one ranked day, as the body of the loop of
    [schedule_task_optimally] asks for them. *)
Definition slots_on (w : World R) (task : Task) (optimal_date : datetime)
    (working_hours : Z * Z) : result (list Slot) :=
  start_of_day <- replace_hour optimal_date (fst working_hours) ;;
  end_of_day <- replace_hour optimal_date (snd working_hours) ;;
  find_available_slots w start_of_day end_of_day (estimated_duration task) working_hours.

Definition reasoning_text (ph : CyclePhase) (t : TaskType) : string :=
  ("Scheduled during " ++ CyclePhase_value ph ++ " phase for optimal "
   ++ TaskType_value t ++ " performance")%string.

(** [for optimal_date, cycle_score in optimal_dates: ...], then [return None]. *)
Fixpoint schedule_in (w : World R) (task : Task) (cycle_data : CycleData)
    (working_hours : Z * Z) (optimal_dates : list Scored)
    : result (option ScheduleResult) * World R :=
  match optimal_dates with
  | [] => (Ok None, w)
  | (optimal_date, score) :: rest =>
      match slots_on w task optimal_date working_hours with
      | Raise e => (Raise e, w)
      | Ok [] => schedule_in w task cycle_data working_hours rest
      | Ok (best_slot :: _) =>
          let (w', event_id) :=
            create_calendar_event w task (slot_start best_slot)
              (Some (estimated_duration task)) in
          let ph := get_phase_for_date cycle_data optimal_date in
          (Ok (Some (mk_ScheduleResult (slot_start best_slot) (slot_end best_slot)
                       score (CyclePhase_value ph) event_id
                       (reasoning_text ph (task_type task)))), w')
      end
  end.

Definition schedule_task_optimally (w : World R) (task : Task)
    (cycle_data : CycleData) (days_ahead : Z) (working_hours : Z * Z)
    : result (option ScheduleResult) * World R :=
  let optimal_dates := get_next_optimal_dates w task cycle_data days_ahead in
  schedule_in w task cycle_data working_hours optimal_dates.

End CalendarService.

(** ** A calendar to run the service on

    The remote calendar as the list of its events; a listing gives the events
    that end after [timeMin] and start before [timeMax] (both are sent with a
    trailing Z, so their wall-clock reading is taken as UTC), an insertion
    appends the event, its times read in the body's time zone (UTC), and
    answers with the id [evt]. *)

Definition instant (d : datetime) : Z :=
  match dt_tz d with
  | Some off => dt_us d - off * US_PER_MINUTE
  | None => dt_us d
  end.

Definition raw_instant (t : RawTime) : Z := instant (fromisoformat t).

Definition mem_events_list (r : list RawEvent) (timeMin timeMax : datetime)
    : option (list RawEvent) :=
  Some (filter (fun ev => (dt_us timeMin <? raw_instant (ev_end ev))
                          && (raw_instant (ev_start ev) <? dt_us timeMax)) r).

Definition mem_events_insert (r : list RawEvent) (body : EventBody)
    : list RawEvent * option string :=
  (r ++ [mk_RawEvent (DateTimeStr (mk_datetime (dt_us (body_start body)) (Some 0)))
                     (DateTimeStr (mk_datetime (dt_us (body_end body)) (Some 0)))
                     (Some (body_summary body))],
   Some "evt"%string).

Definition mem_calendar : GoogleCalendar (list RawEvent) :=
  mk_GoogleCalendar (list RawEvent) mem_events_list mem_events_insert.

(** ** main.py: the endpoints over the engine *)

Module Main.

(** What an endpoint gives: an answer, or [HTTPException(status_code=...)];
    the [detail] text is left out. *)
Inductive http (A : Type) : Type :=
| Answer (a : A)
| HTTPException (status_code : Z).

Arguments Answer {A} a.
Arguments HTTPException {A} status_code.

(** What the body of an endpoint can raise: an HTTPException of its own, an
    exception of the engine, or pydantic's ValidationError. *)
Inductive raised : Type :=
| Http (status_code : Z)
| Engine (e : exn)
| ValidationError.

(** [try: ... except Exception as e: raise HTTPException(status_code=s, ...)]:
    HTTPException is an Exception, so one raised in the body is caught too. *)
Definition except_Exception {A : Type} (s : Z) (body : A + raised) : http A :=
  match body with
  | inl a => Answer a
  | inr _ => HTTPException s
  end.

(** A body outside any [try]: its HTTPException goes out as it is. *)
Definition no_try {A : Type} (body : A + Z) : http A :=
  match body with
  | inl a => Answer a
  | inr s => HTTPException s
  end.

Record UserCycleInput : Type := mk_UserCycleInput {
  in_user_id : string;
  in_last_period_start : datetime;
  in_cycle_length : Z;
  in_period_length : Z
}.

Record TaskInput : Type := mk_TaskInput {
  in_title : string;
  in_description : option string;
  in_task_type : option TaskType;
  in_estimated_duration : Z;
  in_priority : Z
}.

Record ScheduleTaskInput : Type := mk_ScheduleTaskInput {
  sched_user_id : string;
  sched_task : TaskInput;
  sched_working_hours : Z * Z
}.

(** [CycleData(...)] and [Task(...)]: pydantic raises ValidationError when a
    field is outside its bounds. *)
Definition new_CycleData (i : UserCycleInput) : option CycleData :=
  if (21 <=? in_cycle_length i) && (in_cycle_length i <=? 35)
     && (3 <=? in_period_length i) && (in_period_length i <=? 8)
  then Some (mk_CycleData (in_user_id i) (in_last_period_start i)
               (in_cycle_length i) (in_period_length i))
  else None.

Definition new_Task (i : TaskInput) : option Task :=
  if (1 <=? in_priority i) && (in_priority i <=? 5)
  then Some (mk_Task (in_title i) (in_description i)
               (match in_task_type i with Some t => t | None => ADMINISTRATIVE end)
               (in_estimated_duration i) (in_priority i))
  else None.

(** A task with the two fields the endpoint sets after scheduling. *)
Record StoredTask : Type := mk_StoredTask {
  stored_task : Task;
  stored_id : option string;
  stored_scheduled_at : option datetime
}.

(** The two module-level dicts, keyed by user id. *)
Record Store : Type := mk_Store {
  user_cycles : string -> option CycleData;
  user_tasks : string -> option (list StoredTask)
}.

(** [d[k] = v]. *)
Definition dict_set {V : Type} (d : string -> option V) (k : string) (v : V)
    : string -> option V :=
  fun k' => if String.eqb k' k then Some v else d k'.

Definition get_user_cycle_data (st : Store) (user_id : string) : option CycleData :=
  user_cycles st user_id.

Definition get_user_tasks (st : Store) (user_id : string) : list StoredTask :=
  match user_tasks st user_id with
  | Some tasks => tasks
  | None => []
  end.

(** The answers, without the [characteristics] strings and the texts of the
    language model. *)
Record PhaseInfo : Type := mk_PhaseInfo {
  info_phase : string;
  info_energy_level : Z;
  info_focus_level : Z
}.

Record CurrentPhase : Type := mk_CurrentPhase {
  cur_phase : string;
  cur_day_in_cycle : Z;
  cur_energy_level : Z;
  cur_focus_level : Z;
  cur_creativity_level : Z;
  cur_social_energy : Z;
  cur_optimal_tasks : list string
}.

Record Scheduled : Type := mk_Scheduled {
  sch_task : StoredTask;
  sch_scheduling : ScheduleResult
}.


(** [[opt.task_type.value for opt in TASK_OPTIMIZATIONS
      if current_phase in opt.optimal_phases]]. *)
Definition optimal_tasks (ph : CyclePhase) : list string :=
  map (fun opt => TaskType_value (opt_task_type opt))
      (filter (fun opt => phase_in ph (optimal_phases opt)) TASK_OPTIMIZATIONS).

Section Endpoints.

Context {R : Type} (api : GoogleCalendar R).

(** POST /api/cycle/setup. *)
Definition setup_user_cycle (st : Store) (w : World R) (cycle_input : UserCycleInput)
    : Store * http PhaseInfo :=
  match new_CycleData cycle_input with
  | None => (st, except_Exception 400 (inr ValidationError))
  | Some cycle_data =>
      let st' := mk_Store (dict_set (user_cycles st) (in_user_id cycle_input) cycle_data)
                          (user_tasks st) in
      let current_phase := get_current_phase (date (now w)) cycle_data in
      let phase_profile := PHASE_PROFILES current_phase in
      (st', except_Exception 400
              (inl (mk_PhaseInfo (CyclePhase_value current_phase)
                      (energy_level phase_profile) (focus_level phase_profile))))
  end.

(** GET /api/cycle/{user_id}/current; the two readings of the clock are taken
    as one. *)
Definition get_current_phase_endpoint (st : Store) (w : World R) (user_id : string)
    : http CurrentPhase :=
  no_try
    match get_user_cycle_data st user_id with
    | None => inr 404
    | Some cycle_data =>
        let current_phase := get_current_phase (date (now w)) cycle_data in
        let phase_profile := PHASE_PROFILES current_phase in
        inl (mk_CurrentPhase (CyclePhase_value current_phase)
               (date (now w) - date (last_period_start cycle_data) + 1)
               (energy_level phase_profile) (focus_level phase_profile)
               (creativity_level phase_profile) (social_energy phase_profile)
               (optimal_tasks current_phase))
    end.

(** The body of POST /api/tasks/schedule, inside its [try]. *)
Definition schedule_task_body (st : Store) (w : World R)
    (schedule_input : ScheduleTaskInput)
    : (Store * World R) * (Scheduled + raised) :=
  match get_user_cycle_data st (sched_user_id schedule_input) with
  | None => ((st, w), inr (Http 404))
  | Some cycle_data =>
      match new_Task (sched_task schedule_input) with
      | None => ((st, w), inr ValidationError)
      | Some task =>
          match schedule_task_optimally api w task cycle_data 14
                  (sched_working_hours schedule_input) with
          | (Raise e, w') => ((st, w'), inr (Engine e))
          | (Ok None, w') => ((st, w'), inr (Http 400))
          | (Ok (Some scheduling_result), w') =>
              let stored := mk_StoredTask task
                              (calendar_event_id scheduling_result)
                              (Some (scheduled_time scheduling_result)) in
              let st' := mk_Store (user_cycles st)
                           (dict_set (user_tasks st) (sched_user_id schedule_input)
                              (get_user_tasks st (sched_user_id schedule_input)
                               ++ [stored])) in
              ((st', w'), inl (mk_Scheduled stored scheduling_result))
          end
      end
  end.

Definition schedule_task (st : Store) (w : World R) (schedule_input : ScheduleTaskInput)
    : (Store * World R) * http Scheduled :=
  let (after, body) := schedule_task_body st w schedule_input in
  (after, except_Exception 500 body).

(** GET /api/tasks/{user_id}: the tasks and their count. *)
Definition get_user_tasks_endpoint (st : Store) (user_id : string)
    : list StoredTask * Z :=
  let tasks := get_user_tasks st user_id in
  (tasks, Z.of_nat (List.length tasks)).



End Endpoints.

End Main.

(** ** simple_backend.py: GET /api/cycle/{user_id}/current *)

Module SimpleApi.

Record CurrentPhase : Type := mk_CurrentPhase {
  cur_phase : string;
  cur_day_in_cycle : Z;
  cur_energy_level : Z;
  cur_focus_level : Z
}.

(** [PHASE_PROFILES[current_phase]], a dict keyed by the names of the phases:
    [None] is a KeyError. *)
Fixpoint profile_of (items : list (string * SimpleBackend.Profile)) (name : string)
    : option SimpleBackend.Profile :=
  match items with
  | [] => None
  | (k, v) :: rest => if String.eqb k name then Some v else profile_of rest name
  end.

(** The answer, [inr 404] for an unknown user; [None]: KeyError. *)
Definition get_current_phase_info (user_cycles : string -> option CycleData)
    (today : Z) (user_id : string) : option (CurrentPhase + Z) :=
  match user_cycles user_id with
  | None => Some (inr 404)
  | Some cycle_data =>
      let current_phase := SimpleBackend.get_current_phase today cycle_data in
      match profile_of SimpleBackend.PHASE_PROFILES_items current_phase with
      | None => None
      | Some phase_profile =>
          let last_period := date (last_period_start cycle_data) in
          let days_since_period := today - last_period in
          let cycle_day := days_since_period mod cycle_length cycle_data + 1 in
          Some (inl (mk_CurrentPhase current_phase cycle_day
                       (SimpleBackend.energy_level phase_profile)
                       (SimpleBackend.focus_level phase_profile)))
      end
  end.

End SimpleApi.

(** ** agents/cycle_agent.py: _get_optimal_tasks_for_phase *)

Module CycleAgent.

(** The loop [for opt in TASK_OPTIMIZATIONS: if phase in opt.optimal_phases:
    optimal_tasks.append(opt.task_type.value)]. *)
Fixpoint optimal_tasks_loop (opts : list TaskOptimization) (ph : CyclePhase)
    : list string :=
  match opts with
  | [] => []
  | opt :: rest =>
      if phase_in ph (optimal_phases opt)
      then TaskType_value (opt_task_type opt) :: optimal_tasks_loop rest ph
      else optimal_tasks_loop rest ph
  end.

Definition get_optimal_tasks_for_phase (ph : CyclePhase) : list string :=
  optimal_tasks_loop TASK_OPTIMIZATIONS ph.

End CycleAgent.

(** * Definitions for the statements

    The words of the specification as definitions, the search without
    exceptions, and the data of the examples. *)

(** A cycle of 35 days that began on 2024-01-01, and its 29th day. *)
Definition cycle_of_35 : CycleData :=
  mk_CycleData "u" (naive_at (ymd 2024 1 1) 0 0) 35 5.

Definition day_29_of_35 : datetime := naive_at (ymd 2024 1 29) 10 0.

(** Steps 3 to 7 of the score, from the phase. *)
Definition spec_score (base : float) (energy focus prio : Z) : float :=
  py_min 1.0
    (base * 0.5 + (float_of_int energy / 10) * 0.3 + (float_of_int focus / 10) * 0.2
     + float_of_int (prio - 1) * 0.1)%float.

(** The score of a task on a day of the given phase. *)
Definition phase_score (task : Task) (ph : CyclePhase) : float :=
  match find_optimization TASK_OPTIMIZATIONS (task_type task) with
  | None => 0.5%float
  | Some task_opt =>
      spec_score (if phase_in ph (optimal_phases task_opt) then 0.8 else 0.3)%float
        (energy_level (PHASE_PROFILES ph)) (focus_level (PHASE_PROFILES ph))
        (priority task)
  end.

(** A cycle of 28 days that began on 2024-01-01, and a social task of one
    hour with the given priority. *)
Definition cycle_of_28 : CycleData :=
  mk_CycleData "u" (naive_at (ymd 2024 1 1) 0 0) 28 5.

Definition social_task (prio : Z) : Task := mk_Task "meet" None SOCIAL 60 prio.

(** The scores a task can get, one per phase. *)
Definition is_score_of (task : Task) (x : float) : Prop :=
  exists ph, x = phase_score task ph.

(** The fifty cases of a valid task: its priority and its type. *)
Ltac valid_task_cases task H :=
  destruct task as [? ? tt ? prio]; unfold valid_task in H; simpl in H;
  assert (C : prio = 1 \/ prio = 2 \/ prio = 3 \/ prio = 4 \/ prio = 5) by lia;
  clear H; destruct C as [-> | [-> | [-> | [-> | ->]]]]; destruct tt.

(** [a] may stand before [b] in the ranking: the score of [b] is not above
    the score of [a], and with equal scores [a] is the earlier day. *)
Definition ranks_before (a b : Scored) : Prop :=
  (snd b <=? snd a)%float = true /\
  ((snd a =? snd b)%float = true -> date (fst a) < date (fst b)).

(** [a] is of an earlier day than [b]. *)
Definition earlier (a b : Scored) : Prop := date (fst a) < date (fst b).

(** The entries of a list all have scores among [good]. *)
Definition all_good (good : float -> Prop) (l : list Scored) : Prop :=
  Forall (fun y => good (snd y)) l.

(** A process whose calendar client could not be built, at the given time. *)
Definition no_calendar (clock : datetime) : World (list RawEvent) :=
  mk_World (dt_us clock) None.

(** The search without exceptions, for naive busy times: the overlap test, the
    candidate of an hour, the free candidates of a day and of a run of days. *)
Definition naive_busy (b : Busy) : Prop :=
  dt_tz (busy_start b) = None /\ dt_tz (busy_end b) = None.

Definition overlaps (s e : datetime) (b : Busy) : bool :=
  (dt_us s <? dt_us (busy_end b)) && (dt_us (busy_start b) <? dt_us e).

Definition candidate (day duration_minutes hour : Z) : Slot :=
  let s := mk_datetime (day * US_PER_DAY + hour * US_PER_HOUR) None in
  mk_Slot s (add_minutes s duration_minutes) duration_minutes.

Definition is_free (busy_times : list Busy) (c : Slot) : bool :=
  negb (existsb (overlaps (slot_start c) (slot_end c)) busy_times).

Definition free_candidates (busy_times : list Busy) (day duration_minutes : Z)
    (hours : list Z) : list Slot :=
  filter (is_free busy_times) (map (candidate day duration_minutes) hours).

Fixpoint days_from (day : Z) (days : nat) : list Z :=
  match days with
  | O => []
  | S days' => day :: days_from (day + 1) days'
  end.

Definition free_slots (busy_times : list Busy) (day : Z) (days : nat)
    (duration_minutes : Z) (working_hours : Z * Z) : list Slot :=
  flat_map (fun d =>
              if 5 <=? weekday d then []
              else free_candidates busy_times d duration_minutes
                     (range2 (fst working_hours) (snd working_hours)))
           (days_from day days).

(** Monday 2024-01-01. *)
Definition monday : Z := ymd 2024 1 1.

(** Wednesday 2024-01-17, day 17 of the cycle that began on 2024-01-01. *)
Definition wednesday : Z := ymd 2024 1 17.

(** A process with a connected calendar client and an empty calendar. *)
Definition empty_calendar (clock : datetime) : World (list RawEvent) :=
  mk_World (dt_us clock) (Some []).

(** A calendar with one event from 9:00 to 17:00 on each of the 14 days from
    [day] on, its times as the given constructor reads them. *)
Definition busy_all_day (at_time : Z -> Z -> Z -> datetime) (day : Z) : list RawEvent :=
  map (fun i => mk_RawEvent (DateTimeStr (at_time (day + i) 9 0))
                            (DateTimeStr (at_time (day + i) 17 0)) None)
      (range 14).

Definition busy_calendar (at_time : Z -> Z -> Z -> datetime) (clock : datetime)
    : World (list RawEvent) :=
  mk_World (dt_us clock) (Some (busy_all_day at_time (date clock))).

(** [a] starts before [b]. *)
Definition starts_before (a b : Slot) : Prop :=
  dt_us (slot_start a) < dt_us (slot_start b).

(** [s] is the candidate of a whole hour within the working hours, on a day
    from [first_day] to [last_day] that is no weekend day. *)
Definition slot_of_working_hour (first_day last_day : Z) (working_hours : Z * Z)
    (duration_minutes : Z) (s : Slot) : Prop :=
  exists d h,
    first_day <= d <= last_day /\ weekday d < 5 /\
    fst working_hours <= h < snd working_hours /\ 0 <= h <= 23 /\
    s = candidate d duration_minutes h.

(** [event['start']] is a [dateTime]. *)
Definition is_timed (event : RawEvent) : bool :=
  match ev_start event with
  | DateTimeStr _ => true
  | DateStr _ => false
  end.

(** A store without users, and the inputs of the examples: a cycle of 28
    days from 2024-01-01 for the user [u], and a social task of one hour. *)
Definition empty_store : Main.Store := Main.mk_Store (fun _ => None) (fun _ => None).

Definition cycle_input_u : Main.UserCycleInput :=
  Main.mk_UserCycleInput "u" (naive_at (ymd 2024 1 1) 0 0) 28 5.

Definition schedule_input_u (prio : Z) : Main.ScheduleTaskInput :=
  Main.mk_ScheduleTaskInput "u" (Main.mk_TaskInput "meet" None (Some SOCIAL) 60 prio)
    (9, 17).

(** * Properties *)

(** ** Dates *)

Lemma US_PER_DAY_pos : 0 < US_PER_DAY.
Proof. reflexivity. Qed.

Lemma date_add_days (d : datetime) (n : Z) : date (add_days d n) = date d + n.
Proof.
  unfold date, add_days; simpl.
  apply Z.div_add. pose proof US_PER_DAY_pos; lia.
Qed.

Lemma date_of_day_and_hour (ordinal h : Z) (tz : option Z) :
  0 <= h <= 23 ->
  date (mk_datetime (ordinal * US_PER_DAY + h * US_PER_HOUR) tz) = ordinal.
Proof.
  intros Hh. unfold date; simpl.
  rewrite Z.add_comm, Z.div_add by (pose proof US_PER_DAY_pos; lia).
  rewrite Z.div_small; [lia|].
  unfold US_PER_HOUR, US_PER_DAY. lia.
Qed.

Lemma replace_hour_date (d d' : datetime) (h : Z) :
  replace_hour d h = Ok d' -> date d' = date d.
Proof.
  unfold replace_hour.
  destruct ((0 <=? h) && (h <=? 23)) eqn:E; [|discriminate].
  intros H; injection H as <-.
  apply date_of_day_and_hour. lia.
Qed.

Lemma combine_hour_date (ordinal h : Z) (d : datetime) :
  combine_hour ordinal h = Ok d -> date d = ordinal /\ dt_tz d = None.
Proof.
  unfold combine_hour.
  destruct ((0 <=? h) && (h <=? 23)) eqn:E; [|discriminate].
  intros H; injection H as <-. split; [|reflexivity].
  apply date_of_day_and_hour. lia.
Qed.

(** ** Phase resolution *)

(** The backward adjustment of [get_phase_for_date] changes nothing: the cycle
    day is the floor remainder of the day difference, plus one. *)
Lemma cycle_day_for_date_floor_mod (cycle_data : CycleData) (target_date : datetime) :
  cycle_day_for_date cycle_data target_date
  = (date target_date - date (last_period_start cycle_data))
      mod cycle_length cycle_data + 1.
Proof.
  unfold cycle_day_for_date.
  set (d := date target_date - date (last_period_start cycle_data)).
  destruct (d <? 0); [|reflexivity].
  f_equal.
  replace (date target_date
           - (date (last_period_start cycle_data)
              - (Z.abs d / cycle_length cycle_data + 1) * cycle_length cycle_data))
    with (d + (Z.abs d / cycle_length cycle_data + 1) * cycle_length cycle_data)
    by (unfold d; ring).
  apply Z_mod_plus_full.
Qed.

Lemma cycle_day_in_cycle (cycle_data : CycleData) (target_date : datetime) :
  0 < cycle_length cycle_data ->
  1 <= cycle_day_for_date cycle_data target_date <= cycle_length cycle_data.
Proof.
  intros HL. rewrite cycle_day_for_date_floor_mod.
  pose proof (Z.mod_pos_bound (date target_date - date (last_period_start cycle_data))
                (cycle_length cycle_data) HL).
  lia.
Qed.

(** The table covers the days 1..28, each once, and no day after them. *)
Lemma day_range_up_to_28 (cycle_day : Z) :
  1 <= cycle_day <= 28 ->
  exists ph,
    first_matching_phase PHASE_PROFILES_items cycle_day = Some ph /\
    forall q, in_day_range (PHASE_PROFILES q) cycle_day = true <-> q = ph.
Proof.
  intros H.
  assert (C : cycle_day <= 5 \/ 6 <= cycle_day <= 13 \/ 14 <= cycle_day <= 16
              \/ 17 <= cycle_day) by lia.
  destruct C as [C | [C | [C | C]]];
    [exists MENSTRUAL | exists FOLLICULAR | exists OVULATORY | exists LUTEAL];
    (split;
     [ unfold first_matching_phase, PHASE_PROFILES_items, in_day_range; simpl;
       repeat match goal with
              | |- context [?a <=? ?b] => destruct (Z.leb_spec a b); simpl; try lia
              end; reflexivity
     | intros q; destruct q; unfold in_day_range; simpl; split; intros E;
       try reflexivity; try discriminate; lia ]).
Qed.

Lemma no_day_range_after_28 (cycle_day : Z) (q : CyclePhase) :
  28 < cycle_day -> in_day_range (PHASE_PROFILES q) cycle_day = false.
Proof.
  intros H. destruct q; unfold in_day_range; simpl; lia.
Qed.

Lemma fallback_after_28 (cycle_day : Z) :
  28 < cycle_day -> first_matching_phase PHASE_PROFILES_items cycle_day = None.
Proof.
  intros H. unfold first_matching_phase, PHASE_PROFILES_items, in_day_range; simpl.
  repeat match goal with
         | |- context [?a <=? ?b] => destruct (Z.leb_spec a b); simpl; try lia
         end; reflexivity.
Qed.

(** C1, at a cycle of 35 days.  The cycle data is valid, 2024-01-29 is day 29
    of the cycle that began on 2024-01-01, no day range of [PHASE_PROFILES]
    holds 29, the loop of [get_phase_for_date] runs to its end and the phase
    is the one of the fallback [return CyclePhase.LUTEAL]. *)
Theorem C1_day_29_of_35_in_no_day_range :
  valid_cycle_data cycle_of_35 /\
  cycle_day_for_date cycle_of_35 day_29_of_35 = 29 /\
  (forall q, in_day_range (PHASE_PROFILES q) 29 = false) /\
  first_matching_phase PHASE_PROFILES_items
    (cycle_day_for_date cycle_of_35 day_29_of_35) = None /\
  get_phase_for_date cycle_of_35 day_29_of_35 = LUTEAL.
Proof.
  split; [unfold valid_cycle_data; simpl; lia|].
  split; [reflexivity|].
  split; [intros q; destruct q; reflexivity|].
  split; reflexivity.
Qed.

(** C9.  Periodicity: a date and the date [cycle_length] days after it have
    the same cycle day and the same phase, on either side of the start of the
    last period. *)
Theorem C9_phase_periodic (cycle_data : CycleData) (target_date : datetime) :
  cycle_length cycle_data <> 0 ->
  cycle_day_for_date cycle_data (add_days target_date (cycle_length cycle_data))
  = cycle_day_for_date cycle_data target_date
  /\ get_phase_for_date cycle_data (add_days target_date (cycle_length cycle_data))
     = get_phase_for_date cycle_data target_date.
Proof.
  intros _.
  assert (E : cycle_day_for_date cycle_data
                (add_days target_date (cycle_length cycle_data))
              = cycle_day_for_date cycle_data target_date).
  { rewrite !cycle_day_for_date_floor_mod, date_add_days.
    f_equal.
    replace (date target_date + cycle_length cycle_data
             - date (last_period_start cycle_data))
      with (date target_date - date (last_period_start cycle_data)
            + 1 * cycle_length cycle_data) by ring.
    apply Z_mod_plus_full. }
  split; [exact E|].
  unfold get_phase_for_date. now rewrite E.
Qed.

(** A date before the start of the last period, whose shift crosses it. *)
Lemma C9_phase_periodic_witness :
  cycle_length cycle_of_35 <> 0 /\
  cycle_day_for_date cycle_of_35
    (add_days (naive_at (ymd 2023 12 25) 8 0) (cycle_length cycle_of_35))
  = cycle_day_for_date cycle_of_35 (naive_at (ymd 2023 12 25) 8 0)
  /\ get_phase_for_date cycle_of_35
       (add_days (naive_at (ymd 2023 12 25) 8 0) (cycle_length cycle_of_35))
     = get_phase_for_date cycle_of_35 (naive_at (ymd 2023 12 25) 8 0).
Proof.
  split; [simpl; lia|].
  apply (C9_phase_periodic cycle_of_35 (naive_at (ymd 2023 12 25) 8 0)).
  simpl; lia.
Defined.

Lemma simple_backend_table (cycle_day : Z) :
  SimpleBackend.first_matching_phase SimpleBackend.PHASE_PROFILES_items cycle_day
  = option_map CyclePhase_value (first_matching_phase PHASE_PROFILES_items cycle_day).
Proof.
  unfold SimpleBackend.first_matching_phase, SimpleBackend.PHASE_PROFILES_items,
    first_matching_phase, PHASE_PROFILES_items, in_day_range; simpl.
  repeat match goal with
         | |- context [?a <=? ?b] => destruct (a <=? b); simpl
         end; reflexivity.
Qed.

(** C10.  The cycle day of [get_phase_for_date], with its adjustment for a
    date before the last period, is the floor remainder plus one that
    [get_current_phase] computes, and on the same reference day the manager's
    two methods and the function of simple_backend.py give the same phase. *)
Theorem C10_three_resolvers_agree (cycle_data : CycleData) (target_date : datetime) :
  cycle_length cycle_data <> 0 ->
  cycle_day_for_date cycle_data target_date
  = current_cycle_day (date target_date) cycle_data
  /\ get_phase_for_date cycle_data target_date
     = get_current_phase (date target_date) cycle_data
  /\ SimpleBackend.get_current_phase (date target_date) cycle_data
     = CyclePhase_value (get_phase_for_date cycle_data target_date).
Proof.
  intros _.
  assert (E : cycle_day_for_date cycle_data target_date
              = current_cycle_day (date target_date) cycle_data)
    by apply cycle_day_for_date_floor_mod.
  split; [exact E|].
  split.
  - unfold get_phase_for_date, get_current_phase. now rewrite E.
  - unfold SimpleBackend.get_current_phase, get_phase_for_date, phase_of_cycle_day.
    rewrite E, simple_backend_table. unfold current_cycle_day.
    destruct (first_matching_phase PHASE_PROFILES_items _); reflexivity.
Qed.

Lemma C10_three_resolvers_agree_witness :
  cycle_length cycle_of_35 <> 0 /\
  cycle_day_for_date cycle_of_35 (naive_at (ymd 2023 12 25) 8 0)
  = current_cycle_day (date (naive_at (ymd 2023 12 25) 8 0)) cycle_of_35
  /\ get_phase_for_date cycle_of_35 (naive_at (ymd 2023 12 25) 8 0)
     = get_current_phase (date (naive_at (ymd 2023 12 25) 8 0)) cycle_of_35
  /\ SimpleBackend.get_current_phase (date (naive_at (ymd 2023 12 25) 8 0)) cycle_of_35
     = CyclePhase_value (get_phase_for_date cycle_of_35 (naive_at (ymd 2023 12 25) 8 0)).
Proof.
  split; [simpl; lia|].
  apply (C10_three_resolvers_agree cycle_of_35 (naive_at (ymd 2023 12 25) 8 0)).
  simpl; lia.
Defined.

(** ** Scoring *)

Lemma score_by_phase (task : Task) (target_date : datetime) (cycle_data : CycleData) :
  get_optimal_scheduling_score task target_date cycle_data
  = phase_score task (get_phase_for_date cycle_data target_date).
Proof.
  unfold get_optimal_scheduling_score, phase_score, spec_score.
  destruct (find_optimization TASK_OPTIMIZATIONS (task_type task)); reflexivity.
Qed.

(** The score looks at the day of [target_date], not at its time. *)
Lemma score_by_date (task : Task) (d d' : datetime) (cycle_data : CycleData) :
  date d = date d' ->
  get_optimal_scheduling_score task d cycle_data
  = get_optimal_scheduling_score task d' cycle_data.
Proof.
  intros E. rewrite !score_by_phase.
  unfold get_phase_for_date. now rewrite !cycle_day_for_date_floor_mod, E.
Qed.

(** Every task type has its entry in [TASK_OPTIMIZATIONS], and one only. *)
Lemma every_task_type_has_optimization (t : TaskType) :
  exists opt,
    find_optimization TASK_OPTIMIZATIONS t = Some opt /\ opt_task_type opt = t /\
    List.length (filter (fun o => TaskType_eqb (opt_task_type o) t) TASK_OPTIMIZATIONS)
    = 1%nat.
Proof. destruct t; eexists; repeat split; reflexivity. Qed.

(** C4.  The score is [min(1.0, base*0.5 + (energy/10)*0.3 + (focus/10)*0.2
    + (priority - 1)*0.1)] in binary64 arithmetic, with the energy and focus
    of the phase of the date and [base] 0.8 when that phase is one of the
    optimal phases of the task type's entry, 0.3 when it is not; without an
    entry the score is 0.5. *)
Theorem C4_score_formula (task : Task) (target_date : datetime)
    (cycle_data : CycleData) :
  valid_task task ->
  let ph := get_phase_for_date cycle_data target_date in
  match find_optimization TASK_OPTIMIZATIONS (task_type task) with
  | Some affinity =>
      get_optimal_scheduling_score task target_date cycle_data
      = spec_score (if phase_in ph (optimal_phases affinity) then 0.8 else 0.3)%float
          (energy_level (PHASE_PROFILES ph)) (focus_level (PHASE_PROFILES ph))
          (priority task)
  | None => get_optimal_scheduling_score task target_date cycle_data = 0.5%float
  end.
Proof.
  intros _ ph. rewrite score_by_phase. fold ph. unfold phase_score.
  destruct (find_optimization TASK_OPTIMIZATIONS (task_type task)); reflexivity.
Qed.

(** A social task of priority 2 on an ovulatory day, and one of priority 1 on
    a luteal day. *)
Example score_ovulatory :
  get_optimal_scheduling_score (social_task 2) (naive_at (ymd 2024 1 15) 9 0) cycle_of_28
  = 0.91000000000000003%float.
Proof. reflexivity. Qed.

Example score_luteal :
  get_optimal_scheduling_score (social_task 1) (naive_at (ymd 2024 1 17) 9 0) cycle_of_28
  = 0.47999999999999998%float.
Proof. reflexivity. Qed.

Lemma C4_score_formula_witness :
  valid_task (social_task 2) /\
  get_optimal_scheduling_score (social_task 2) (naive_at (ymd 2024 1 15) 9 0) cycle_of_28
  = spec_score 0.8 9 7 2.
Proof.
  split; [unfold valid_task; simpl; lia|].
  apply (C4_score_formula (social_task 2) (naive_at (ymd 2024 1 15) 9 0) cycle_of_28).
  unfold valid_task; simpl; lia.
Defined.

(** The scores of a valid task, over the phases, are ordered by the float
    comparisons as numbers are, and lie between 0.36 and 1. *)
Lemma score_bounds (task : Task) (ph : CyclePhase) :
  valid_task task ->
  (0.36 <=? phase_score task ph)%float = true /\
  (phase_score task ph <=? 1.0)%float = true.
Proof.
  intros H. valid_task_cases task H; destruct ph; vm_compute; split; reflexivity.
Qed.

Lemma score_lt_le (task : Task) (p q : CyclePhase) :
  valid_task task ->
  (phase_score task p <? phase_score task q)%float = true ->
  (phase_score task p <=? phase_score task q)%float = true /\
  (phase_score task q =? phase_score task p)%float = false.
Proof.
  intros H. valid_task_cases task H; destruct p, q; vm_compute; intros E;
    (discriminate E || (split; reflexivity)).
Qed.

Lemma score_not_lt (task : Task) (p q : CyclePhase) :
  valid_task task ->
  (phase_score task p <? phase_score task q)%float = false ->
  (phase_score task q <=? phase_score task p)%float = true.
Proof.
  intros H. valid_task_cases task H; destruct p, q; vm_compute; intros E;
    (discriminate E || reflexivity).
Qed.

Lemma score_le_trans (task : Task) (p q r : CyclePhase) :
  valid_task task ->
  (phase_score task p <=? phase_score task q)%float = true ->
  (phase_score task q <=? phase_score task r)%float = true ->
  (phase_score task p <=? phase_score task r)%float = true.
Proof.
  intros H. valid_task_cases task H; destruct p, q, r; vm_compute; intros E1 E2;
    (discriminate E1 || discriminate E2 || reflexivity).
Qed.

(** ** Ranking *)

Lemma In_insert_by_score (x z : Scored) (l : list Scored) :
  In z (insert_by_score x l) <-> z = x \/ In z l.
Proof.
  induction l as [|y l IH]; simpl.
  - intuition congruence.
  - destruct (snd x <? snd y)%float; simpl; rewrite ?IH; intuition congruence.
Qed.

Lemma In_sort_by_score_desc (z : Scored) (l : list Scored) :
  In z (sort_by_score_desc l) <-> In z l.
Proof.
  induction l as [|x l IH]; simpl; [reflexivity|].
  rewrite In_insert_by_score, IH. intuition congruence.
Qed.

Lemma length_insert_by_score (x : Scored) (l : list Scored) :
  List.length (insert_by_score x l) = S (List.length l).
Proof.
  induction l as [|y l IH]; simpl; [reflexivity|].
  destruct (snd x <? snd y)%float; simpl; congruence.
Qed.

Lemma length_sort_by_score_desc (l : list Scored) :
  List.length (sort_by_score_desc l) = List.length l.
Proof.
  induction l as [|x l IH]; simpl; [reflexivity|].
  now rewrite length_insert_by_score, IH.
Qed.

Section SortedByScore.

(** The scores met in the list, and the order facts the sort needs of them. *)
Variable good : float -> Prop.
Hypothesis lt_le : forall x y, good x -> good y ->
  (x <? y)%float = true -> (x <=? y)%float = true /\ (y =? x)%float = false.
Hypothesis not_lt : forall x y, good x -> good y ->
  (x <? y)%float = false -> (y <=? x)%float = true.
Hypothesis le_trans : forall x y z, good x -> good y -> good z ->
  (x <=? y)%float = true -> (y <=? z)%float = true -> (x <=? z)%float = true.

(** An entry earlier than all the entries of a ranking goes to its place. *)
Lemma insert_by_score_sorted (x : Scored) (l : list Scored) :
  good (snd x) -> all_good good l ->
  Forall (earlier x) l ->
  StronglySorted ranks_before l ->
  StronglySorted ranks_before (insert_by_score x l).
Proof.
  intros Gx Gl. induction l as [|y l IH]; intros Hx Hs; simpl.
  - constructor; constructor.
  - inversion Gl as [|? ? Gy Gl']; subst.
    inversion Hx as [|? ? Hxy Hxl]; subst.
    inversion Hs as [|? ? Hs' Hy]; subst.
    destruct (snd x <? snd y)%float eqn:E.
    + destruct (lt_le _ _ Gx Gy E) as [Hle Hne].
      constructor; [now apply IH|].
      rewrite Forall_forall. intros z Hz.
      apply In_insert_by_score in Hz. destruct Hz as [-> | Hz].
      * split; [exact Hle|]. intros Heq. congruence.
      * rewrite Forall_forall in Hy. now apply Hy.
    + pose proof (not_lt _ _ Gx Gy E) as Hyx.
      constructor; [exact Hs|].
      constructor.
      * split; [exact Hyx|]. intros _. exact Hxy.
      * rewrite Forall_forall in *. intros z Hz.
        split; [|intros _; now apply Hxl].
        apply (le_trans _ (snd y) _); auto. now apply Hy.
Qed.

Lemma sort_by_score_desc_sorted (l : list Scored) :
  all_good good l ->
  StronglySorted earlier l ->
  StronglySorted ranks_before (sort_by_score_desc l).
Proof.
  intros Gl Hs. induction Hs as [|x l Hs IH Hx]; simpl; [constructor|].
  inversion Gl as [|? ? Gx Gl']; subst.
  apply insert_by_score_sorted; auto.
  - unfold all_good. rewrite Forall_forall in *. intros z Hz.
    apply Gl'. now apply In_sort_by_score_desc.
  - rewrite Forall_forall in *. intros z Hz.
    apply Hx. now apply In_sort_by_score_desc.
Qed.

End SortedByScore.

Lemma In_firstn {A : Type} (n : nat) (l : list A) (z : A) :
  In z (firstn n l) -> In z l.
Proof.
  revert n. induction l as [|x l IH]; intros [|n]; simpl; try tauto.
  intros [E | H]; [now left | right; eauto].
Qed.

Lemma StronglySorted_firstn {A : Type} (P : A -> A -> Prop) (n : nat) (l : list A) :
  StronglySorted P l -> StronglySorted P (firstn n l).
Proof.
  intros Hs. revert n. induction Hs as [|x l Hs IH Hx]; intros [|n]; simpl;
    try constructor; auto.
  rewrite Forall_forall in *. intros z Hz. apply Hx.
  now apply (In_firstn n l).
Qed.

(** The entries of the loop: one per day from today on, each with the score
    of its day. *)
Lemma In_scored_dates (today : datetime) (task : Task) (cycle_data : CycleData)
    (days_ahead : Z) (e : Scored) :
  In e (scored_dates today task cycle_data days_ahead) ->
  exists i, 0 <= i < days_ahead /\ fst e = add_days today i /\
            snd e = get_optimal_scheduling_score task (fst e) cycle_data.
Proof.
  unfold scored_dates, range. rewrite map_map, in_map_iff.
  intros [k [<- Hk]]. apply in_seq in Hk. exists (Z.of_nat k). simpl.
  repeat split; lia.
Qed.

Lemma scored_dates_ascending (today : datetime) (task : Task)
    (cycle_data : CycleData) (days_ahead : Z) :
  StronglySorted earlier (scored_dates today task cycle_data days_ahead).
Proof.
  unfold scored_dates, range. rewrite map_map.
  generalize (Z.to_nat days_ahead) as n. generalize 0%nat as s.
  intros s n. revert s. induction n as [|n IH]; intros s; simpl; constructor.
  - apply IH.
  - rewrite Forall_forall. intros z Hz. apply in_map_iff in Hz.
    destruct Hz as [k [<- Hk]]. apply in_seq in Hk.
    unfold earlier; simpl. rewrite !date_add_days. lia.
Qed.

Lemma In_get_next_optimal_dates {R : Type} (w : World R) (task : Task)
    (cycle_data : CycleData) (days_ahead : Z) (e : Scored) :
  In e (get_next_optimal_dates w task cycle_data days_ahead) ->
  exists i, 0 <= i < days_ahead /\ fst e = add_days (now w) i /\
            snd e = get_optimal_scheduling_score task (fst e) cycle_data.
Proof.
  unfold get_next_optimal_dates. intros H.
  apply In_firstn in H. apply -> In_sort_by_score_desc in H.
  now apply In_scored_dates in H.
Qed.

(** C7.  The ranking is in non-increasing order of score, and of two entries
    with the same score the one of the earlier day comes first: every entry
    [ranks_before] every later one. *)
Theorem C7_ranking_sorted {R : Type} (w : World R) (task : Task)
    (cycle_data : CycleData) (days_ahead : Z) :
  valid_task task ->
  StronglySorted ranks_before (get_next_optimal_dates w task cycle_data days_ahead).
Proof.
  intros Hv. unfold get_next_optimal_dates.
  apply StronglySorted_firstn.
  apply (sort_by_score_desc_sorted (is_score_of task)).
  - intros x y [p ->] [q ->]. now apply score_lt_le.
  - intros x y [p ->] [q ->]. now apply score_not_lt.
  - intros x y z [p ->] [q ->] [r ->]. now apply score_le_trans.
  - unfold all_good. rewrite Forall_forall. intros e He.
    apply In_scored_dates in He. destruct He as [i [_ [_ ->]]].
    rewrite score_by_phase. now eexists.
  - apply scored_dates_ascending.
Qed.

(** The ranking of a social task over 14 days from 2024-01-10: the three
    ovulatory days first, then the follicular ones, then luteal ones. *)
Example ranking_from_jan_10 :
  map (fun e => (date (fst e) - ymd 2024 1 1 + 1, snd e))
      (get_next_optimal_dates (no_calendar (naive_at (ymd 2024 1 10) 13 30))
         (social_task 1) cycle_of_28 14)
  = [ (14, 0.81000000000000005%float); (15, 0.81000000000000005%float);
      (16, 0.81000000000000005%float); (10, 0.52000000000000002%float);
      (11, 0.52000000000000002%float); (12, 0.52000000000000002%float);
      (13, 0.52000000000000002%float); (17, 0.47999999999999998%float);
      (18, 0.47999999999999998%float); (19, 0.47999999999999998%float) ].
Proof. reflexivity. Qed.

Lemma C7_ranking_sorted_witness :
  valid_task (social_task 1) /\
  StronglySorted ranks_before
    (get_next_optimal_dates (no_calendar (naive_at (ymd 2024 1 10) 13 30))
       (social_task 1) cycle_of_28 14).
Proof.
  split; [unfold valid_task; simpl; lia|].
  apply (C7_ranking_sorted (no_calendar (naive_at (ymd 2024 1 10) 13 30))
           (social_task 1) cycle_of_28 14).
  unfold valid_task; simpl; lia.
Defined.

(** ** Slot search *)

Lemma has_conflict_naive (s e : datetime) (busy_times : list Busy) :
  dt_tz s = None -> dt_tz e = None -> Forall naive_busy busy_times ->
  has_conflict s e busy_times = Ok (existsb (overlaps s e) busy_times).
Proof.
  intros Hs He Hb. induction Hb as [|b l [Hbs Hbe] Hl IH]; simpl; [reflexivity|].
  unfold dt_gt, dt_lt, overlaps. rewrite Hs, He, Hbs, Hbe. simpl.
  destruct (dt_us s <? dt_us (busy_end b)); simpl; [|exact IH].
  destruct (dt_us (busy_start b) <? dt_us e); simpl; [reflexivity|exact IH].
Qed.

Lemma range2_bounds (a b h : Z) : In h (range2 a b) -> a <= h < b.
Proof.
  unfold range2. rewrite in_map_iff. intros [k [<- Hk]]. apply in_seq in Hk. lia.
Qed.

Lemma length_range2 (a b : Z) : a <= b -> Z.of_nat (List.length (range2 a b)) = b - a.
Proof. intros H. unfold range2. rewrite length_map, length_seq. lia. Qed.

Lemma slots_of_hours_naive (busy_times : list Busy) (day duration_minutes : Z)
    (hours : list Z) :
  Forall naive_busy busy_times ->
  Forall (fun h => 0 <= h <= 23) hours ->
  slots_of_hours busy_times day duration_minutes hours
  = Ok (free_candidates busy_times day duration_minutes hours).
Proof.
  intros Hb Hh. induction Hh as [|h l Hh Hl IH]; simpl; [reflexivity|].
  unfold combine_hour.
  replace ((0 <=? h) && (h <=? 23)) with true by lia. simpl.
  rewrite has_conflict_naive by (auto; reflexivity).
  simpl. rewrite IH. simpl.
  change (free_candidates busy_times day duration_minutes (h :: l))
    with (if is_free busy_times (candidate day duration_minutes h)
          then candidate day duration_minutes h
               :: free_candidates busy_times day duration_minutes l
          else free_candidates busy_times day duration_minutes l).
  unfold is_free, candidate; simpl.
  destruct (existsb _ busy_times); reflexivity.
Qed.

Lemma slots_of_days_naive (busy_times : list Busy) (day : Z) (days : nat)
    (duration_minutes : Z) (working_hours : Z * Z) :
  Forall naive_busy busy_times ->
  0 <= fst working_hours -> snd working_hours <= 24 ->
  slots_of_days busy_times day days duration_minutes working_hours
  = Ok (free_slots busy_times day days duration_minutes working_hours).
Proof.
  intros Hb H0 H24. revert day. induction days as [|n IH]; intros day; simpl;
    [reflexivity|].
  unfold free_slots; simpl. fold (free_slots busy_times (day + 1) n
                                    duration_minutes working_hours).
  destruct (5 <=? weekday day).
  - apply IH.
  - rewrite slots_of_hours_naive; auto.
    + simpl. rewrite IH. reflexivity.
    + rewrite Forall_forall. intros h Hh. apply range2_bounds in Hh. lia.
Qed.

(** Every free candidate is a candidate of a working hour of one of the days,
    and overlaps no busy time. *)
Lemma In_free_slots (busy_times : list Busy) (day : Z) (days : nat)
    (duration_minutes : Z) (working_hours : Z * Z) (c : Slot) :
  In c (free_slots busy_times day days duration_minutes working_hours) <->
  exists d h, In d (days_from day days) /\ weekday d < 5 /\
              fst working_hours <= h < snd working_hours /\
              c = candidate d duration_minutes h /\
              forall b, In b busy_times ->
                        overlaps (slot_start c) (slot_end c) b = false.
Proof.
  unfold free_slots. rewrite in_flat_map. split.
  - intros [d [Hd Hc]]. destruct (Z.leb_spec 5 (weekday d)); [contradiction|].
    unfold free_candidates in Hc. apply filter_In in Hc. destruct Hc as [Hc Hf].
    apply in_map_iff in Hc. destruct Hc as [h [<- Hh]].
    exists d, h. repeat split; auto; try (apply range2_bounds in Hh; lia).
    intros b Hb. unfold is_free in Hf. apply negb_true_iff in Hf.
    destruct (overlaps _ _ b) eqn:E; [|reflexivity].
    assert (X : existsb (overlaps (slot_start (candidate d duration_minutes h))
                           (slot_end (candidate d duration_minutes h))) busy_times = true)
      by (apply existsb_exists; eauto).
    congruence.
  - intros [d [h [Hd [Hw [Hh [-> Hfree]]]]]]. exists d. split; [exact Hd|].
    destruct (Z.leb_spec 5 (weekday d)); [lia|].
    unfold free_candidates. apply filter_In. split.
    + apply in_map. unfold range2. apply in_map_iff.
      exists (Z.to_nat (h - fst working_hours)). split; [lia|].
      apply in_seq. lia.
    + unfold is_free. apply negb_true_iff.
      destruct (existsb _ busy_times) eqn:E; [|reflexivity].
      apply existsb_exists in E. destruct E as [b [Hb Ho]].
      rewrite (Hfree b Hb) in Ho. discriminate.
Qed.

Example monday_is_a_monday : weekday monday = 0.
Proof. reflexivity. Qed.

(** C3 as stated fails: 600 minutes are more than the 480 of the window from
    9 to 17, and the search over a Monday without busy times returns the eight
    slots of the hours 9..16, each 600 minutes long. *)
Lemma C3_overlong_duration_finds_slots :
  (17 - 9) * 60 < 600 /\
  find_available_slots mem_calendar (no_calendar (naive_at monday 8 0))
    (naive_at monday 9 0) (naive_at monday 17 0) 600 (9, 17)
  = Ok (map (candidate monday 600) [9; 10; 11; 12; 13; 14; 15; 16]).
Proof. split; [lia | reflexivity]. Qed.

(** C3, amended.  The duration is not compared with the working window.  For
    naive busy times and working hours within 0..24 the search returns, for
    every duration, the candidates [h:00, h:00 + duration) of the whole hours
    [start_hour <= h < end_hour] of the days of the range that are no weekend
    days, in order, that overlap no busy time. *)
Theorem C3_slots_whatever_the_duration {R : Type} (api : GoogleCalendar R)
    (w : World R) (start_date end_date : datetime) (duration_minutes : Z)
    (working_hours : Z * Z) :
  Forall naive_busy (get_calendar_availability api w start_date end_date) ->
  0 <= fst working_hours -> snd working_hours <= 24 ->
  find_available_slots api w start_date end_date duration_minutes working_hours
  = Ok (free_slots (get_calendar_availability api w start_date end_date)
          (date start_date) (Z.to_nat (date end_date - date start_date + 1))
          duration_minutes working_hours).
Proof.
  intros Hb H0 H24. unfold find_available_slots.
  now apply slots_of_days_naive.
Qed.

Lemma C3_slots_whatever_the_duration_witness :
  Forall naive_busy
    (get_calendar_availability mem_calendar (no_calendar (naive_at monday 8 0))
       (naive_at monday 9 0) (naive_at monday 17 0)) /\
  find_available_slots mem_calendar (no_calendar (naive_at monday 8 0))
    (naive_at monday 9 0) (naive_at monday 17 0) 600 (9, 17)
  = Ok (free_slots
          (get_calendar_availability mem_calendar (no_calendar (naive_at monday 8 0))
             (naive_at monday 9 0) (naive_at monday 17 0))
          (date (naive_at monday 9 0))
          (Z.to_nat (date (naive_at monday 17 0) - date (naive_at monday 9 0) + 1))
          600 (9, 17)).
Proof.
  split; [constructor|].
  apply (C3_slots_whatever_the_duration mem_calendar
           (no_calendar (naive_at monday 8 0))
           (naive_at monday 9 0) (naive_at monday 17 0) 600 (9, 17)).
  - constructor.
  - simpl; lia.
  - simpl; lia.
Defined.

(** Without busy times a weekday gives one slot per working hour. *)
Lemma one_slot_per_hour_without_busy_times (day duration_minutes : Z)
    (working_hours : Z * Z) :
  weekday day < 5 ->
  free_slots [] day 1 duration_minutes working_hours
  = map (candidate day duration_minutes)
        (range2 (fst working_hours) (snd working_hours)).
Proof.
  intros Hw. unfold free_slots; simpl.
  destruct (Z.leb_spec 5 (weekday day)); [lia|].
  rewrite app_nil_r. unfold free_candidates.
  induction (map _ _) as [|c l IH]; simpl; [reflexivity|]. now rewrite IH.
Qed.

(** ** Scheduling *)

Lemma bind_Ok {A B : Type} (m : result A) (k : A -> result B) (b : B) :
  bind m k = Ok b -> exists a, m = Ok a /\ k a = Ok b.
Proof. destruct m as [a|e]; simpl; [eauto | discriminate]. Qed.

Lemma slots_of_hours_date (busy_times : list Busy) (day duration_minutes : Z)
    (hours : list Z) (slots : list Slot) :
  slots_of_hours busy_times day duration_minutes hours = Ok slots ->
  Forall (fun s => date (slot_start s) = day) slots.
Proof.
  revert slots. induction hours as [|h l IH]; simpl; intros slots H.
  - injection H as <-. constructor.
  - apply bind_Ok in H. destruct H as [s [Hs H]].
    apply bind_Ok in H. destruct H as [c [_ H]].
    apply bind_Ok in H. destruct H as [more [Hmore H]].
    injection H as <-. specialize (IH more Hmore).
    destruct c; [exact IH|]. constructor; [|exact IH].
    simpl. now apply combine_hour_date in Hs.
Qed.

Section Scheduling.

Context {R : Type} (api : GoogleCalendar R).

(** The slots found for a ranked day lie on that day. *)
Lemma slots_on_date (w : World R) (task : Task) (optimal_date : datetime)
    (working_hours : Z * Z) (slots : list Slot) :
  slots_on api w task optimal_date working_hours = Ok slots ->
  Forall (fun s => date (slot_start s) = date optimal_date) slots.
Proof.
  unfold slots_on. intros H.
  apply bind_Ok in H. destruct H as [s [Hs H]].
  apply bind_Ok in H. destruct H as [e [He H]].
  apply replace_hour_date in Hs. apply replace_hour_date in He.
  unfold find_available_slots in H. rewrite Hs, He in H.
  replace (Z.to_nat (date optimal_date - date optimal_date + 1)) with 1%nat in H by lia.
  simpl in H. destruct (5 <=? weekday (date optimal_date)).
  - injection H as <-. constructor.
  - apply bind_Ok in H. destruct H as [today [Ht H]]. simpl in H.
    injection H as <-. rewrite app_nil_r.
    now apply slots_of_hours_date in Ht.
Qed.

Lemma duration_or_estimated (task : Task) :
  duration_or (Some (estimated_duration task)) task = estimated_duration task.
Proof. unfold duration_or. now destruct (estimated_duration task =? 0). Qed.

(** What a run of the loop that returns a result has done. *)
Lemma schedule_in_found (w w' : World R) (task : Task) (cycle_data : CycleData)
    (working_hours : Z * Z) (optimal_dates : list Scored) (r : ScheduleResult) :
  schedule_in api w task cycle_data working_hours optimal_dates = (Ok (Some r), w') ->
  exists e best rest,
    In e optimal_dates /\
    slots_on api w task (fst e) working_hours = Ok (best :: rest) /\
    scheduled_time r = slot_start best /\
    end_time r = slot_end best /\
    cycle_score r = snd e /\
    hormonal_phase r = CyclePhase_value (get_phase_for_date cycle_data (fst e)) /\
    create_calendar_event api w task (slot_start best) (Some (estimated_duration task))
    = (w', calendar_event_id r).
Proof.
  induction optimal_dates as [|[d sc] l IH]; simpl; [discriminate|].
  destruct (slots_on api w task d working_hours) as [[|best rest]|ex] eqn:E.
  - intros H. destruct (IH H) as [e [b [rs [Hin Hrest]]]]. exists e, b, rs. tauto.
  - destruct (create_calendar_event api w task (slot_start best)
                (Some (estimated_duration task))) as [w1 id] eqn:C.
    intros H. injection H as <- <-.
    exists (d, sc), best, rest. simpl. repeat split; auto.
  - discriminate.
Qed.

(** A run that returns no result, or raises, leaves the world as it was. *)
Lemma schedule_in_no_effect (w w' : World R) (task : Task) (cycle_data : CycleData)
    (working_hours : Z * Z) (optimal_dates : list Scored)
    (res : result (option ScheduleResult)) :
  schedule_in api w task cycle_data working_hours optimal_dates = (res, w') ->
  (forall r, res <> Ok (Some r)) -> w' = w.
Proof.
  induction optimal_dates as [|[d sc] l IH]; simpl.
  - intros H _. now injection H as _ <-.
  - destruct (slots_on api w task d working_hours) as [[|best rest]|ex] eqn:E.
    + exact IH.
    + destruct (create_calendar_event api w task (slot_start best)
                  (Some (estimated_duration task))) as [w1 id].
      intros H Hne. injection H as <- _. now elim (Hne _ eq_refl).
    + intros H _. now injection H as _ <-.
Qed.

(** No slot on any ranked day: the loop ends and [None] is returned. *)
Lemma schedule_in_not_found (w : World R) (task : Task) (cycle_data : CycleData)
    (working_hours : Z * Z) (optimal_dates : list Scored) :
  (forall e, In e optimal_dates -> slots_on api w task (fst e) working_hours = Ok []) ->
  schedule_in api w task cycle_data working_hours optimal_dates = (Ok None, w).
Proof.
  induction optimal_dates as [|[d sc] l IH]; simpl; intros H; [reflexivity|].
  pose proof (H (d, sc) (or_introl eq_refl)) as Hd. simpl in Hd. rewrite Hd.
  apply IH. intros e He. apply H. now right.
Qed.

End Scheduling.

(** C2 as stated fails: on an empty calendar, scheduling a task leaves the
    calendar with an event for the chosen slot, 9:00 to 10:00 on 2024-01-17,
    and the result carries the id of that event. *)
Lemma C2_schedule_inserts_an_event :
  service (empty_calendar (naive_at wednesday 13 30)) = Some [] /\
  service (snd (schedule_task_optimally mem_calendar
                  (empty_calendar (naive_at wednesday 13 30))
                  (social_task 1) cycle_of_28 14 (9, 17)))
  = Some [mk_RawEvent (DateTimeStr (utc_at wednesday 9 0))
                      (DateTimeStr (utc_at wednesday 10 0)) (Some "meet"%string)] /\
  option_map calendar_event_id
    (match fst (schedule_task_optimally mem_calendar
                  (empty_calendar (naive_at wednesday 13 30))
                  (social_task 1) cycle_of_28 14 (9, 17))
     with Ok r => r | Raise _ => None end)
  = Some (Some "evt"%string).
Proof. repeat split; vm_compute; reflexivity. Qed.

(** C2, amended.  The call keeps no task (the process has no task store) and
    does not touch the clock.  When it returns a result and the calendar
    client is connected, it has sent one [events().insert()] for the task at
    the chosen slot, and the result carries the id the calendar gave; in every
    other case (no client, no slot found, an exception) the calendar is as it
    was. *)
Theorem C2_schedule_effect {R : Type} (api : GoogleCalendar R) (w : World R)
    (task : Task) (cycle_data : CycleData) (days_ahead : Z) (working_hours : Z * Z) :
  let run := schedule_task_optimally api w task cycle_data days_ahead working_hours in
  wall_clock (snd run) = wall_clock w /\
  match fst run with
  | Ok (Some r) =>
      match service w with
      | Some remote =>
          let sent := events_insert api remote
                        (event_body task (scheduled_time r) (estimated_duration task)) in
          service (snd run) = Some (fst sent) /\ calendar_event_id r = snd sent
      | None => snd run = w /\ calendar_event_id r = None
      end
  | _ => snd run = w
  end.
Proof.
  intros run. unfold run, schedule_task_optimally.
  destruct (schedule_in api w task cycle_data working_hours
              (get_next_optimal_dates w task cycle_data days_ahead))
    as [res w'] eqn:E. simpl.
  destruct res as [[r|]|ex].
  - apply schedule_in_found in E.
    destruct E as [e [best [rest [_ [_ [Hst [_ [_ [_ Hc]]]]]]]]].
    unfold create_calendar_event in Hc. rewrite duration_or_estimated, <- Hst in Hc.
    destruct (service w) as [remote|].
    + destruct (events_insert api remote _) as [r' id].
      injection Hc as <- <-. simpl. auto.
    + injection Hc as <- <-. auto.
  - apply schedule_in_no_effect in E; [|discriminate]. subst w'. auto.
  - apply schedule_in_no_effect in E; [|discriminate]. subst w'. auto.
Qed.

(** C5 as stated fails: a social task of priority 1 has an entry in
    [TASK_OPTIMIZATIONS]; scheduled on 2024-01-17 over the default 14 days it
    gets 9:00 on that day, a luteal day, whose score is 0.48. *)
Lemma C5_scheduled_below_neutral :
  find_optimization TASK_OPTIMIZATIONS (task_type (social_task 1)) <> None /\
  exists r,
    fst (schedule_task_optimally mem_calendar (no_calendar (naive_at wednesday 13 30))
           (social_task 1) cycle_of_28 14 (9, 17)) = Ok (Some r) /\
    scheduled_time r = naive_at wednesday 9 0 /\
    get_optimal_scheduling_score (social_task 1) (scheduled_time r) cycle_of_28
    = 0.47999999999999998%float /\
    (get_optimal_scheduling_score (social_task 1) (scheduled_time r) cycle_of_28
     <? 0.5)%float = true.
Proof.
  split; [discriminate|].
  exists (mk_ScheduleResult (naive_at wednesday 9 0) (naive_at wednesday 10 0)
            0.47999999999999998%float "luteal" None
            "Scheduled during luteal phase for optimal social performance").
  repeat split; vm_compute; reflexivity.
Qed.

(** C5, amended.  When the call returns a result for a valid task, the score
    of the task at the returned [scheduled_time] is the [cycle_score] of the
    result, the score of the ranked day the slot was found on; it lies between
    0.36 and 1.0. *)
Theorem C5_rescore_is_cycle_score {R : Type} (api : GoogleCalendar R)
    (w w' : World R) (task : Task) (cycle_data : CycleData) (days_ahead : Z)
    (working_hours : Z * Z) (r : ScheduleResult) :
  valid_task task ->
  schedule_task_optimally api w task cycle_data days_ahead working_hours
  = (Ok (Some r), w') ->
  get_optimal_scheduling_score task (scheduled_time r) cycle_data = cycle_score r /\
  (0.36 <=? cycle_score r)%float = true /\
  (cycle_score r <=? 1.0)%float = true.
Proof.
  intros Hv H. unfold schedule_task_optimally in H.
  apply schedule_in_found in H.
  destruct H as [e [best [rest [Hin [Hs [Hst [_ [Hsc _]]]]]]]].
  apply In_get_next_optimal_dates in Hin. destruct Hin as [i [_ [_ He]]].
  apply slots_on_date in Hs. inversion Hs as [|? ? Hd _]; subst.
  assert (E : get_optimal_scheduling_score task (scheduled_time r) cycle_data
              = cycle_score r).
  { rewrite Hsc, He, Hst. now apply score_by_date. }
  split; [exact E|].
  rewrite <- E, score_by_phase. now apply score_bounds.
Qed.

Lemma C5_rescore_is_cycle_score_witness :
  valid_task (social_task 1) /\
  get_optimal_scheduling_score (social_task 1) (naive_at wednesday 9 0) cycle_of_28
  = 0.47999999999999998%float /\
  (0.36 <=? 0.47999999999999998)%float = true /\
  (0.47999999999999998 <=? 1.0)%float = true.
Proof.
  split; [unfold valid_task; simpl; lia|].
  apply (C5_rescore_is_cycle_score mem_calendar
           (no_calendar (naive_at wednesday 13 30))
           (no_calendar (naive_at wednesday 13 30))
           (social_task 1) cycle_of_28 14 (9, 17)
           (mk_ScheduleResult (naive_at wednesday 9 0) (naive_at wednesday 10 0)
              0.47999999999999998%float "luteal" None
              "Scheduled during luteal phase for optimal social performance")).
  - unfold valid_task; simpl; lia.
  - vm_compute; reflexivity.
Defined.

(** With busy times that compare with the slots, here naive ones, the days
    that are covered give no slot and the call returns [None]. *)
Example covered_by_naive_busy_times :
  schedule_task_optimally mem_calendar (busy_calendar naive_at (naive_at wednesday 13 30))
    (social_task 1) cycle_of_28 14 (9, 17)
  = (Ok None, busy_calendar naive_at (naive_at wednesday 13 30)).
Proof. vm_compute; reflexivity. Qed.

(** C8, on a calendar as Google answers.  Every ranked day has an event from
    09:00Z to 17:00Z over its working hours.  The listing's [dateTime] strings
    end in Z and are parsed to aware datetimes, the slots are built with
    [datetime.combine] and are naive, and the first comparison
    [slot_start < busy['end']] raises TypeError, which nothing catches: the
    call raises where the claim has it return [None]. *)
Theorem C8_aware_busy_times_raise :
  Forall (fun e =>
            exists ev, In ev (busy_all_day utc_at wednesday) /\
                       ev_start ev = DateTimeStr (utc_at (date (fst e)) 9 0) /\
                       ev_end ev = DateTimeStr (utc_at (date (fst e)) 17 0))
         (get_next_optimal_dates (busy_calendar utc_at (naive_at wednesday 13 30))
            (social_task 1) cycle_of_28 14) /\
  schedule_task_optimally mem_calendar (busy_calendar utc_at (naive_at wednesday 13 30))
    (social_task 1) cycle_of_28 14 (9, 17)
  = (Raise TypeError, busy_calendar utc_at (naive_at wednesday 13 30)).
Proof.
  split; [|vm_compute; reflexivity].
  rewrite Forall_forall. intros e He.
  apply In_get_next_optimal_dates in He. destruct He as [i [Hi [He _]]].
  exists (mk_RawEvent (DateTimeStr (utc_at (wednesday + i) 9 0))
                      (DateTimeStr (utc_at (wednesday + i) 17 0)) None).
  assert (D : date (fst e) = wednesday + i).
  { rewrite He, date_add_days. reflexivity. }
  rewrite D. repeat split.
  unfold busy_all_day. apply in_map_iff. exists i. split; [reflexivity|].
  unfold range. apply in_map_iff. exists (Z.to_nat i). split; [lia|].
  apply in_seq. lia.
Qed.

(** ** What the results depend on *)

(** C6 as stated fails: with the same task, cycle data and horizon, a call
    on 2024-01-10 and a call on 2024-01-17 rank different days, and with the
    same arguments the slot search gives eight slots on an empty calendar and
    none on a busy one. *)
Lemma C6_results_follow_clock_and_calendar :
  service (no_calendar (naive_at (ymd 2024 1 10) 13 30))
  = service (no_calendar (naive_at wednesday 13 30)) /\
  get_next_optimal_dates (no_calendar (naive_at (ymd 2024 1 10) 13 30))
    (social_task 1) cycle_of_28 14
  <> get_next_optimal_dates (no_calendar (naive_at wednesday 13 30))
       (social_task 1) cycle_of_28 14 /\
  wall_clock (empty_calendar (naive_at wednesday 13 30))
  = wall_clock (busy_calendar naive_at (naive_at wednesday 13 30)) /\
  find_available_slots mem_calendar (empty_calendar (naive_at wednesday 13 30))
    (naive_at wednesday 9 0) (naive_at wednesday 17 0) 60 (9, 17)
  <> find_available_slots mem_calendar (busy_calendar naive_at (naive_at wednesday 13 30))
       (naive_at wednesday 9 0) (naive_at wednesday 17 0) 60 (9, 17).
Proof.
  split; [reflexivity|]. split.
  - intros H. apply (f_equal (map (fun e => date (fst e)))) in H.
    vm_compute in H. discriminate H.
  - split; [reflexivity|]. intros H.
    apply (f_equal (fun r => match r with
                             | Ok l => Some (List.length l)
                             | Raise _ => None
                             end)) in H.
    vm_compute in H. discriminate H.
Qed.

(** C6, amended.  The methods take no time and no calendar among their
    arguments.  The score reads neither ([get_optimal_scheduling_score] has
    no world to read); the ranking is determined by its arguments and the
    reading of the clock, whatever the calendar; the slot search by its
    arguments and the calendar client with its calendar, whatever the clock. *)
Theorem C6_determined_by_clock_and_calendar {R : Type} (api : GoogleCalendar R) :
  (forall (w1 w2 : World R) task cycle_data days_ahead,
      wall_clock w1 = wall_clock w2 ->
      get_next_optimal_dates w1 task cycle_data days_ahead
      = get_next_optimal_dates w2 task cycle_data days_ahead) /\
  (forall (w1 w2 : World R) start_date end_date duration_minutes working_hours,
      service w1 = service w2 ->
      find_available_slots api w1 start_date end_date duration_minutes working_hours
      = find_available_slots api w2 start_date end_date duration_minutes working_hours).
Proof.
  split.
  - intros w1 w2 task cycle_data days_ahead H.
    unfold get_next_optimal_dates, now. now rewrite H.
  - intros w1 w2 s e d wh H.
    unfold find_available_slots, get_calendar_availability. now rewrite H.
Qed.

Lemma C6_determined_by_clock_and_calendar_witness :
  get_next_optimal_dates (no_calendar (naive_at wednesday 13 30))
    (social_task 1) cycle_of_28 14
  = get_next_optimal_dates (empty_calendar (naive_at wednesday 13 30))
      (social_task 1) cycle_of_28 14.
Proof.
  apply (proj1 (C6_determined_by_clock_and_calendar mem_calendar)
           (no_calendar (naive_at wednesday 13 30))
           (empty_calendar (naive_at wednesday 13 30))
           (social_task 1) cycle_of_28 14).
  reflexivity.
Defined.

(** * Further properties of the engine *)

(** ** The cycle day *)

(** X1.  On the day the last period started, at any time of that day, the
    cycle day is 1 and the phase is menstrual. *)
Theorem X1_last_period_start_is_day_1 (cycle_data : CycleData)
    (target_date : datetime) :
  cycle_length cycle_data <> 0 ->
  date target_date = date (last_period_start cycle_data) ->
  cycle_day_for_date cycle_data target_date = 1 /\
  get_phase_for_date cycle_data target_date = MENSTRUAL.
Proof.
  intros _ E.
  assert (D : cycle_day_for_date cycle_data target_date = 1).
  { rewrite cycle_day_for_date_floor_mod, E, Z.sub_diag, Zmod_0_l. reflexivity. }
  split; [exact D|]. unfold get_phase_for_date. rewrite D. reflexivity.
Qed.

Lemma X1_last_period_start_is_day_1_witness :
  cycle_day_for_date cycle_of_35 (naive_at (ymd 2024 1 1) 23 59) = 1 /\
  get_phase_for_date cycle_of_35 (naive_at (ymd 2024 1 1) 23 59) = MENSTRUAL.
Proof.
  apply (X1_last_period_start_is_day_1 cycle_of_35 (naive_at (ymd 2024 1 1) 23 59)).
  - simpl; lia.
  - reflexivity.
Defined.

(** X2.  Backward wrapping: [k] days before the start of the last period,
    for [k] from 1 to the cycle length, the cycle day is
    [cycle_length + 1 - k]; the day before the start is the last day of a
    cycle. *)
Theorem X2_days_before_last_period (cycle_data : CycleData)
    (target_date : datetime) (k : Z) :
  0 < cycle_length cycle_data ->
  1 <= k <= cycle_length cycle_data ->
  date target_date = date (last_period_start cycle_data) - k ->
  cycle_day_for_date cycle_data target_date = cycle_length cycle_data + 1 - k.
Proof.
  intros HL Hk E. rewrite cycle_day_for_date_floor_mod, E.
  replace (date (last_period_start cycle_data) - k - date (last_period_start cycle_data))
    with (cycle_length cycle_data - k + (-1) * cycle_length cycle_data) by ring.
  rewrite Z_mod_plus_full, Z.mod_small; lia.
Qed.

Lemma X2_days_before_last_period_witness :
  cycle_day_for_date cycle_of_35 (naive_at (ymd 2023 12 31) 8 0)
  = cycle_length cycle_of_35 + 1 - 1.
Proof.
  apply (X2_days_before_last_period cycle_of_35 (naive_at (ymd 2023 12 31) 8 0) 1).
  - simpl; lia.
  - simpl; lia.
  - reflexivity.
Defined.

(** ** The score *)

(** X3.  The score of a valid task lies between 0.36 and 1.0, on every date
    and for every cycle data. *)
Theorem X3_score_between_036_and_1 (task : Task) (target_date : datetime)
    (cycle_data : CycleData) :
  valid_task task ->
  (0.36 <=? get_optimal_scheduling_score task target_date cycle_data)%float = true /\
  (get_optimal_scheduling_score task target_date cycle_data <=? 1.0)%float = true.
Proof. intros Hv. rewrite score_by_phase. now apply score_bounds. Qed.

Lemma X3_score_between_036_and_1_witness :
  (0.36 <=? get_optimal_scheduling_score (social_task 5)
              (naive_at (ymd 2024 1 15) 9 0) cycle_of_28)%float = true /\
  (get_optimal_scheduling_score (social_task 5)
     (naive_at (ymd 2024 1 15) 9 0) cycle_of_28 <=? 1.0)%float = true.
Proof.
  apply (X3_score_between_036_and_1 (social_task 5)
           (naive_at (ymd 2024 1 15) 9 0) cycle_of_28).
  unfold valid_task; simpl; lia.
Defined.

Lemma optimal_phase_scores_higher (task : Task) (opt : TaskOptimization)
    (p q : CyclePhase) :
  valid_task task ->
  find_optimization TASK_OPTIMIZATIONS (task_type task) = Some opt ->
  phase_in p (optimal_phases opt) = true ->
  phase_in q (optimal_phases opt) = false ->
  (phase_score task q <? phase_score task p)%float = true.
Proof.
  intros Hv. valid_task_cases task Hv; simpl; intros E; injection E as <-;
    destruct p, q; simpl; intros Hp Hq;
    (discriminate Hp || discriminate Hq || (vm_compute; reflexivity)).
Qed.

(** X4.  For a valid task, a day in one of the optimal phases of its task
    type scores strictly higher than a day in any other phase, at every
    priority and also after the cap at 1.0. *)
Theorem X4_optimal_phase_scores_higher (task : Task) (opt : TaskOptimization)
    (d1 d2 : datetime) (cycle_data : CycleData) :
  valid_task task ->
  find_optimization TASK_OPTIMIZATIONS (task_type task) = Some opt ->
  phase_in (get_phase_for_date cycle_data d1) (optimal_phases opt) = true ->
  phase_in (get_phase_for_date cycle_data d2) (optimal_phases opt) = false ->
  (get_optimal_scheduling_score task d2 cycle_data
   <? get_optimal_scheduling_score task d1 cycle_data)%float = true.
Proof.
  intros Hv Ho H1 H2. rewrite !score_by_phase.
  now apply (optimal_phase_scores_higher task opt).
Qed.

Lemma X4_optimal_phase_scores_higher_witness :
  (get_optimal_scheduling_score (social_task 5) (naive_at (ymd 2024 1 10) 9 0) cycle_of_28
   <? get_optimal_scheduling_score (social_task 5) (naive_at (ymd 2024 1 15) 9 0)
        cycle_of_28)%float = true.
Proof.
  apply (X4_optimal_phase_scores_higher (social_task 5)
           (mk_TaskOptimization SOCIAL [OVULATORY] 9 7)
           (naive_at (ymd 2024 1 15) 9 0) (naive_at (ymd 2024 1 10) 9 0) cycle_of_28).
  - unfold valid_task; simpl; lia.
  - reflexivity.
  - reflexivity.
  - reflexivity.
Defined.

Lemma phase_score_by_priority (t1 t2 : Task) (p : CyclePhase) :
  valid_task t1 -> valid_task t2 -> task_type t1 = task_type t2 ->
  priority t1 <= priority t2 ->
  (phase_score t1 p <=? phase_score t2 p)%float = true.
Proof.
  intros H1 H2. destruct t2 as [? ? tt2 ? prio2]. unfold valid_task in H2; simpl in H2.
  valid_task_cases t1 H1; simpl; intros <- Hle;
    assert (C : prio2 = 1 \/ prio2 = 2 \/ prio2 = 3 \/ prio2 = 4 \/ prio2 = 5) by lia;
    destruct C as [-> | [-> | [-> | [-> | ->]]]]; try lia;
    destruct p; vm_compute; reflexivity.
Qed.

(** X5.  Of two valid tasks of the same type, the one with the higher
    priority never scores lower on the same date. *)
Theorem X5_score_grows_with_priority (t1 t2 : Task) (target_date : datetime)
    (cycle_data : CycleData) :
  valid_task t1 -> valid_task t2 -> task_type t1 = task_type t2 ->
  priority t1 <= priority t2 ->
  (get_optimal_scheduling_score t1 target_date cycle_data
   <=? get_optimal_scheduling_score t2 target_date cycle_data)%float = true.
Proof.
  intros H1 H2 Ht Hp. rewrite !score_by_phase. now apply phase_score_by_priority.
Qed.

Lemma X5_score_grows_with_priority_witness :
  (get_optimal_scheduling_score (social_task 2) (naive_at (ymd 2024 1 10) 9 0) cycle_of_28
   <=? get_optimal_scheduling_score (social_task 4) (naive_at (ymd 2024 1 10) 9 0)
         cycle_of_28)%float = true.
Proof.
  apply (X5_score_grows_with_priority (social_task 2) (social_task 4)
           (naive_at (ymd 2024 1 10) 9 0) cycle_of_28).
  - unfold valid_task; simpl; lia.
  - unfold valid_task; simpl; lia.
  - reflexivity.
  - simpl; lia.
Defined.

(** X6.  The score repeats with the cycle: a whole number of cycles earlier
    or later, the score of a task is the same. *)
Theorem X6_score_periodic (task : Task) (target_date : datetime)
    (cycle_data : CycleData) (cycles : Z) :
  cycle_length cycle_data <> 0 ->
  get_optimal_scheduling_score task
    (add_days target_date (cycles * cycle_length cycle_data)) cycle_data
  = get_optimal_scheduling_score task target_date cycle_data.
Proof.
  intros _. rewrite !score_by_phase. f_equal. unfold get_phase_for_date. f_equal.
  rewrite !cycle_day_for_date_floor_mod, date_add_days. f_equal.
  replace (date target_date + cycles * cycle_length cycle_data
           - date (last_period_start cycle_data))
    with (date target_date - date (last_period_start cycle_data)
          + cycles * cycle_length cycle_data) by ring.
  apply Z_mod_plus_full.
Qed.

Lemma X6_score_periodic_witness :
  get_optimal_scheduling_score (social_task 2)
    (add_days (naive_at (ymd 2024 1 15) 9 0) (-3 * cycle_length cycle_of_28)) cycle_of_28
  = get_optimal_scheduling_score (social_task 2) (naive_at (ymd 2024 1 15) 9 0)
      cycle_of_28.
Proof.
  apply (X6_score_periodic (social_task 2) (naive_at (ymd 2024 1 15) 9 0)
           cycle_of_28 (-3)).
  simpl; lia.
Defined.

(** ** The ranking *)

Lemma Permutation_insert_by_score (x : Scored) (l : list Scored) :
  Permutation (insert_by_score x l) (x :: l).
Proof.
  induction l as [|y l IH]; simpl; [reflexivity|].
  destruct (snd x <? snd y)%float; [|reflexivity].
  rewrite IH. apply perm_swap.
Qed.

Lemma Permutation_sort_by_score_desc (l : list Scored) :
  Permutation (sort_by_score_desc l) l.
Proof.
  induction l as [|x l IH]; simpl; [reflexivity|].
  rewrite Permutation_insert_by_score. now constructor.
Qed.

Lemma length_scored_dates (today : datetime) (task : Task) (cycle_data : CycleData)
    (days_ahead : Z) :
  List.length (scored_dates today task cycle_data days_ahead) = Z.to_nat days_ahead.
Proof. unfold scored_dates, range. now rewrite !length_map, length_seq. Qed.

Lemma NoDup_firstn {A : Type} (n : nat) (l : list A) : NoDup l -> NoDup (firstn n l).
Proof.
  intros H. rewrite <- (firstn_skipn n l) in H. now apply NoDup_app_remove_r in H.
Qed.

Lemma NoDup_map_injective {A B : Type} (f : A -> B) (l : list A) :
  (forall a b, f a = f b -> a = b) -> NoDup l -> NoDup (map f l).
Proof.
  intros Hf H. induction H as [|x l Hx H IH]; simpl; constructor; [|exact IH].
  intros Hin. apply in_map_iff in Hin. destruct Hin as [y [E Hy]].
  apply Hf in E. now subst.
Qed.

Lemma score_le_refl (task : Task) (p : CyclePhase) :
  valid_task task -> (phase_score task p <=? phase_score task p)%float = true.
Proof.
  intros Hv. apply score_not_lt; [exact Hv|].
  destruct (phase_score task p <? phase_score task p)%float eqn:E; [|reflexivity].
  revert E. valid_task_cases task Hv; destruct p; vm_compute; intros E; discriminate E.
Qed.

Lemma scored_dates_days_distinct (today : datetime) (task : Task)
    (cycle_data : CycleData) (days_ahead : Z) :
  NoDup (map (fun e => date (fst e)) (scored_dates today task cycle_data days_ahead)).
Proof.
  unfold scored_dates, range. rewrite !map_map. simpl.
  apply NoDup_map_injective; [|apply seq_NoDup].
  intros a b E. rewrite !date_add_days in E. lia.
Qed.

Lemma StronglySorted_app_order {A : Type} (P : A -> A -> Prop) (l1 l2 : list A)
    (a b : A) :
  StronglySorted P (l1 ++ l2) -> In a l1 -> In b l2 -> P a b.
Proof.
  induction l1 as [|x l1 IH]; simpl; intros Hs Ha Hb; [contradiction|].
  inversion Hs as [|? ? Hs' Hx]; subst.
  destruct Ha as [-> | Ha]; [|now apply IH].
  rewrite Forall_forall in Hx. apply Hx. apply in_or_app. now right.
Qed.

(** The whole window, sorted: what the ranking is the head of. *)
Lemma sorted_window_sorted (today : datetime) (task : Task) (cycle_data : CycleData)
    (days_ahead : Z) :
  valid_task task ->
  StronglySorted ranks_before
    (sort_by_score_desc (scored_dates today task cycle_data days_ahead)).
Proof.
  intros Hv. apply (sort_by_score_desc_sorted (is_score_of task)).
  - intros x y [p ->] [q ->]. now apply score_lt_le.
  - intros x y [p ->] [q ->]. now apply score_not_lt.
  - intros x y z [p ->] [q ->] [r ->]. now apply score_le_trans.
  - unfold all_good. rewrite Forall_forall. intros e He.
    apply In_scored_dates in He. destruct He as [i [_ [_ ->]]].
    rewrite score_by_phase. now eexists.
  - apply scored_dates_ascending.
Qed.

Lemma length_get_next_optimal_dates {R : Type} (w : World R) (task : Task)
    (cycle_data : CycleData) (days_ahead : Z) :
  List.length (get_next_optimal_dates w task cycle_data days_ahead)
  = Nat.min 10 (Z.to_nat days_ahead).
Proof.
  unfold get_next_optimal_dates.
  now rewrite length_firstn, length_sort_by_score_desc, length_scored_dates.
Qed.

(** X7.  The ranking has ten entries, or as many as there are days in the
    window when these are fewer; none for a window of no days. *)
Theorem X7_ranking_length {R : Type} (w : World R) (task : Task)
    (cycle_data : CycleData) (days_ahead : Z) :
  List.length (get_next_optimal_dates w task cycle_data days_ahead)
  = Nat.min 10 (Z.to_nat days_ahead).
Proof. apply length_get_next_optimal_dates. Qed.

(** X8.  Every entry of the ranking is a day of the window, today plus less
    than [days_ahead] days at the time of the call, with the score of that
    day; no day is ranked twice. *)
Theorem X8_ranking_entries {R : Type} (w : World R) (task : Task)
    (cycle_data : CycleData) (days_ahead : Z) :
  NoDup (map (fun e => date (fst e))
           (get_next_optimal_dates w task cycle_data days_ahead)) /\
  forall e, In e (get_next_optimal_dates w task cycle_data days_ahead) ->
            exists i, 0 <= i < days_ahead /\ fst e = add_days (now w) i /\
                      snd e = get_optimal_scheduling_score task (fst e) cycle_data.
Proof.
  split; [|intros e; apply In_get_next_optimal_dates].
  unfold get_next_optimal_dates. rewrite <- firstn_map. apply NoDup_firstn.
  apply (Permutation_NoDup
           (l := map (fun e => date (fst e))
                   (scored_dates (now w) task cycle_data days_ahead))).
  - apply Permutation_map. symmetry. apply Permutation_sort_by_score_desc.
  - apply scored_dates_days_distinct.
Qed.

(** X9.  No day that was left out of the ranking scores higher than a
    ranked one: for a valid task, the score of every day of the window that
    is not in the ranking is at most the score of every entry. *)
Theorem X9_ranking_keeps_the_best {R : Type} (w : World R) (task : Task)
    (cycle_data : CycleData) (days_ahead i : Z) (e : Scored) :
  valid_task task ->
  In e (get_next_optimal_dates w task cycle_data days_ahead) ->
  0 <= i < days_ahead ->
  (forall e', In e' (get_next_optimal_dates w task cycle_data days_ahead) ->
              date (fst e') <> date (now w) + i) ->
  (get_optimal_scheduling_score task (add_days (now w) i) cycle_data
   <=? snd e)%float = true.
Proof.
  intros Hv He Hi Hout. unfold get_next_optimal_dates in *.
  set (l := sort_by_score_desc (scored_dates (now w) task cycle_data days_ahead)) in *.
  set (x := (add_days (now w) i,
             get_optimal_scheduling_score task (add_days (now w) i) cycle_data)).
  assert (Hx : In x l).
  { apply In_sort_by_score_desc. unfold scored_dates.
    apply in_map_iff. exists i. split; [reflexivity|].
    unfold range. apply in_map_iff. exists (Z.to_nat i). split; [lia|].
    apply in_seq. lia. }
  rewrite <- (firstn_skipn 10 l) in Hx. apply in_app_or in Hx.
  destruct Hx as [Hx | Hx].
  - exfalso. apply (Hout x Hx). unfold x; simpl. apply date_add_days.
  - pose proof (sorted_window_sorted (now w) task cycle_data days_ahead Hv) as Hs.
    fold l in Hs. rewrite <- (firstn_skipn 10 l) in Hs.
    apply (StronglySorted_app_order _ _ _ e x Hs He Hx).
Qed.

Lemma X9_ranking_keeps_the_best_witness :
  (get_optimal_scheduling_score (social_task 1)
     (add_days (now (no_calendar (naive_at (ymd 2024 1 10) 13 30))) 13) cycle_of_28
   <=? snd (naive_at (ymd 2024 1 14) 13 30, 0.81000000000000005%float))%float = true.
Proof.
  apply (X9_ranking_keeps_the_best (no_calendar (naive_at (ymd 2024 1 10) 13 30))
           (social_task 1) cycle_of_28 14 13).
  - unfold valid_task; simpl; lia.
  - vm_compute. tauto.
  - lia.
  - intros e' He'. vm_compute in He'.
    repeat (destruct He' as [<- | He']; [vm_compute; discriminate|]).
    contradiction.
Defined.

Lemma first_ranked_is_best {R : Type} (w : World R) (task : Task)
    (cycle_data : CycleData) (days_ahead i : Z) (e : Scored) (rest : list Scored) :
  valid_task task ->
  get_next_optimal_dates w task cycle_data days_ahead = e :: rest ->
  0 <= i < days_ahead ->
  (get_optimal_scheduling_score task (add_days (now w) i) cycle_data
   <=? snd e)%float = true.
Proof.
  intros Hv He Hi. unfold get_next_optimal_dates in He.
  pose proof (sorted_window_sorted (now w) task cycle_data days_ahead Hv) as Hs.
  assert (Hx : In (add_days (now w) i,
                   get_optimal_scheduling_score task (add_days (now w) i) cycle_data)
                  (sort_by_score_desc
                     (scored_dates (now w) task cycle_data days_ahead))).
  { apply In_sort_by_score_desc. unfold scored_dates.
    apply in_map_iff. exists i. split; [reflexivity|].
    unfold range. apply in_map_iff. exists (Z.to_nat i). split; [lia|].
    apply in_seq. lia. }
  destruct (sort_by_score_desc (scored_dates (now w) task cycle_data days_ahead))
    as [|y l']; [contradiction|].
  simpl in He. injection He as Ey _. rewrite <- Ey.
  inversion Hs as [|a l0 _ Hy Ea]. clear Ea.
  destruct Hx as [E | Hx].
  - rewrite E. simpl. rewrite score_by_phase. now apply score_le_refl.
  - rewrite Forall_forall in Hy. now apply (Hy _ Hx).
Qed.

(** X10.  The first entry of the ranking of a valid task has the highest
    score of the whole window. *)
Theorem X10_first_entry_is_best {R : Type} (w : World R) (task : Task)
    (cycle_data : CycleData) (days_ahead i : Z) (e : Scored) (rest : list Scored) :
  valid_task task ->
  get_next_optimal_dates w task cycle_data days_ahead = e :: rest ->
  0 <= i < days_ahead ->
  (get_optimal_scheduling_score task (add_days (now w) i) cycle_data
   <=? snd e)%float = true.
Proof. apply first_ranked_is_best. Qed.

Lemma X10_first_entry_is_best_witness :
  (get_optimal_scheduling_score (social_task 1)
     (add_days (now (no_calendar (naive_at (ymd 2024 1 10) 13 30))) 0) cycle_of_28
   <=? snd (naive_at (ymd 2024 1 14) 13 30, 0.81000000000000005%float))%float = true.
Proof.
  apply (X10_first_entry_is_best (no_calendar (naive_at (ymd 2024 1 10) 13 30))
           (social_task 1) cycle_of_28 14 0
           (naive_at (ymd 2024 1 14) 13 30, 0.81000000000000005%float)
           (tl (get_next_optimal_dates (no_calendar (naive_at (ymd 2024 1 10) 13 30))
                  (social_task 1) cycle_of_28 14))).
  - unfold valid_task; simpl; lia.
  - vm_compute; reflexivity.
  - lia.
Defined.

(** ** The slot search *)

Lemma combine_hour_Ok (day h : Z) (s : datetime) :
  combine_hour day h = Ok s ->
  0 <= h <= 23 /\ s = mk_datetime (day * US_PER_DAY + h * US_PER_HOUR) None.
Proof.
  unfold combine_hour. destruct ((0 <=? h) && (h <=? 23)) eqn:E; [|discriminate].
  intros H; injection H as <-. split; [lia | reflexivity].
Qed.

Lemma StronglySorted_app_intro {A : Type} (P : A -> A -> Prop) (l1 l2 : list A) :
  StronglySorted P l1 -> StronglySorted P l2 ->
  (forall a b, In a l1 -> In b l2 -> P a b) ->
  StronglySorted P (l1 ++ l2).
Proof.
  intros H1 H2 H. induction H1 as [|x l1 H1 IH Hx]; simpl; [exact H2|].
  constructor.
  - apply IH. intros a b Ha Hb. apply H; [now right | exact Hb].
  - rewrite Forall_forall in *. intros b Hb. apply in_app_or in Hb.
    destruct Hb as [Hb | Hb]; [now apply Hx | apply H; [now left | exact Hb]].
Qed.

Lemma range2_ascending (a b : Z) : StronglySorted Z.lt (range2 a b).
Proof.
  unfold range2. generalize (Z.to_nat (b - a)) as n. generalize 0%nat as s.
  intros s n. revert s. induction n as [|n IH]; intros s; simpl; constructor.
  - apply IH.
  - rewrite Forall_forall. intros z Hz. apply in_map_iff in Hz.
    destruct Hz as [k [<- Hk]]. apply in_seq in Hk. lia.
Qed.

(** The slots of one day: candidates of hours of the list, in the order of
    the hours, whatever the busy times are. *)
Lemma slots_of_hours_shape (busy_times : list Busy) (day duration_minutes : Z)
    (hours : list Z) (slots : list Slot) :
  StronglySorted Z.lt hours ->
  slots_of_hours busy_times day duration_minutes hours = Ok slots ->
  StronglySorted starts_before slots /\
  Forall (fun s => exists h, In h hours /\ 0 <= h <= 23 /\
                             s = candidate day duration_minutes h) slots.
Proof.
  intros Hs. revert slots. induction Hs as [|h l Hs IH Hh]; simpl; intros slots H.
  - injection H as <-. split; constructor.
  - apply bind_Ok in H. destruct H as [s [Hc H]].
    apply bind_Ok in H. destruct H as [c [_ H]].
    apply bind_Ok in H. destruct H as [more [Hmore H]].
    injection H as <-. destruct (IH more Hmore) as [Sm Fm].
    assert (Fm' : Forall (fun s0 => exists h0, In h0 (h :: l) /\ 0 <= h0 <= 23 /\
                                    s0 = candidate day duration_minutes h0) more).
    { rewrite Forall_forall in *. intros s0 Hs0.
      destruct (Fm s0 Hs0) as [h0 [Hin Hrest]]. exists h0. split; [now right | exact Hrest]. }
    destruct c; [split; assumption|].
    apply combine_hour_Ok in Hc. destruct Hc as [Hr ->].
    split; constructor; auto.
    + rewrite Forall_forall in *. intros s0 Hs0.
      destruct (Fm s0 Hs0) as [h0 [Hin [_ ->]]].
      unfold starts_before, candidate; simpl.
      specialize (Hh h0 Hin). unfold US_PER_HOUR. lia.
    + exists h. split; [now left|]. split; [exact Hr | reflexivity].
Qed.

Lemma slots_of_days_shape (busy_times : list Busy) (day : Z) (days : nat)
    (duration_minutes : Z) (working_hours : Z * Z) (slots : list Slot) :
  slots_of_days busy_times day days duration_minutes working_hours = Ok slots ->
  StronglySorted starts_before slots /\
  Forall (slot_of_working_hour day (day + Z.of_nat days - 1) working_hours
            duration_minutes) slots.
Proof.
  revert day slots. induction days as [|n IH]; simpl; intros day slots H.
  - injection H as <-. split; constructor.
  - assert (W : forall l,
               Forall (slot_of_working_hour (day + 1) (day + 1 + Z.of_nat n - 1)
                         working_hours duration_minutes) l ->
               Forall (slot_of_working_hour day (day + Z.pos (Pos.of_succ_nat n) - 1)
                         working_hours duration_minutes) l).
    { intros l Hl. rewrite Forall_forall in *. intros s Hs.
      destruct (Hl s Hs) as [d [h [Hd Hrest]]]. exists d, h. split; [lia | exact Hrest]. }
    destruct (Z.leb_spec 5 (weekday day)) as [Hw | Hw].
    + destruct (IH _ _ H) as [S1 F1]. split; [exact S1 | now apply W].
    + apply bind_Ok in H. destruct H as [today [Ht H]].
      apply bind_Ok in H. destruct H as [more [Hm H]]. injection H as <-.
      apply slots_of_hours_shape in Ht; [|apply range2_ascending].
      destruct Ht as [St Ft]. destruct (IH _ _ Hm) as [Sm Fm].
      rewrite Forall_forall in Ft, Fm.
      split.
      * apply StronglySorted_app_intro; auto. intros a b Ha Hb.
        destruct (Ft a Ha) as [h [_ [Hh ->]]].
        destruct (Fm b Hb) as [d' [h' [Hd' [_ [_ [Hh' ->]]]]]].
        unfold starts_before, candidate; simpl.
        unfold US_PER_HOUR, US_PER_DAY. lia.
      * apply Forall_app. split.
        -- rewrite Forall_forall. intros s Hs.
           destruct (Ft s Hs) as [h [Hin [Hh ->]]]. apply range2_bounds in Hin.
           exists day, h. repeat split; try lia.
        -- apply W. now rewrite Forall_forall.
Qed.

(** X11.  Whatever the busy times and the duration, every slot the search
    returns starts on a whole hour [h] with [start_hour <= h < end_hour], on a
    day of the range that is no Saturday or Sunday, ends [duration_minutes]
    after its start and carries that duration. *)
Theorem X11_slots_are_working_hours {R : Type} (api : GoogleCalendar R) (w : World R)
    (start_date end_date : datetime) (duration_minutes : Z) (working_hours : Z * Z)
    (slots : list Slot) :
  find_available_slots api w start_date end_date duration_minutes working_hours
  = Ok slots ->
  Forall (fun s =>
            slot_of_working_hour (date start_date) (date end_date) working_hours
              duration_minutes s /\
            slot_end s = add_minutes (slot_start s) duration_minutes /\
            slot_duration s = duration_minutes /\
            dt_tz (slot_start s) = None) slots.
Proof.
  unfold find_available_slots. intros H.
  apply slots_of_days_shape in H. destruct H as [_ H].
  rewrite Forall_forall in *. intros s Hs.
  destruct (H s Hs) as [d [h [Hd [Hw [Hh [Hr ->]]]]]].
  split; [|repeat split].
  exists d, h. repeat split; try lia.
Qed.

Lemma X11_slots_are_working_hours_witness :
  Forall (fun s =>
            slot_of_working_hour (date (naive_at monday 9 0)) (date (naive_at monday 17 0))
              (9, 17) 600 s /\
            slot_end s = add_minutes (slot_start s) 600 /\
            slot_duration s = 600 /\
            dt_tz (slot_start s) = None)
         (map (candidate monday 600) [9; 10; 11; 12; 13; 14; 15; 16]).
Proof.
  apply (X11_slots_are_working_hours mem_calendar (no_calendar (naive_at monday 8 0))
           (naive_at monday 9 0) (naive_at monday 17 0) 600 (9, 17)).
  vm_compute; reflexivity.
Defined.

(** X12.  The slots come in the order of their start times, each strictly
    before the next. *)
Theorem X12_slots_in_order {R : Type} (api : GoogleCalendar R) (w : World R)
    (start_date end_date : datetime) (duration_minutes : Z) (working_hours : Z * Z)
    (slots : list Slot) :
  find_available_slots api w start_date end_date duration_minutes working_hours
  = Ok slots ->
  StronglySorted starts_before slots.
Proof.
  unfold find_available_slots. intros H. now apply slots_of_days_shape in H.
Qed.

Lemma X12_slots_in_order_witness :
  StronglySorted starts_before (map (candidate monday 600) [9; 10; 11; 12; 13; 14; 15; 16]).
Proof.
  apply (X12_slots_in_order mem_calendar (no_calendar (naive_at monday 8 0))
           (naive_at monday 9 0) (naive_at monday 17 0) 600 (9, 17)).
  vm_compute; reflexivity.
Defined.

(** X13.  When the calendar gives no busy time (no client, a listing that
    failed, or no timed event in the range), the search over one weekday with
    working hours within 0..24 returns exactly one slot per working hour, from
    [start_hour] to [end_hour - 1]. *)
Theorem X13_one_slot_per_working_hour {R : Type} (api : GoogleCalendar R)
    (w : World R) (start_date end_date : datetime) (duration_minutes : Z)
    (working_hours : Z * Z) :
  get_calendar_availability api w start_date end_date = [] ->
  date start_date = date end_date ->
  weekday (date start_date) < 5 ->
  0 <= fst working_hours -> snd working_hours <= 24 ->
  find_available_slots api w start_date end_date duration_minutes working_hours
  = Ok (map (candidate (date start_date) duration_minutes)
          (range2 (fst working_hours) (snd working_hours))).
Proof.
  intros Hb Hd Hw H0 H24. unfold find_available_slots. rewrite Hb, <- Hd.
  replace (Z.to_nat (date start_date - date start_date + 1)) with 1%nat by lia.
  rewrite slots_of_days_naive by (auto; constructor).
  now rewrite one_slot_per_hour_without_busy_times.
Qed.

Lemma X13_one_slot_per_working_hour_witness :
  find_available_slots mem_calendar (no_calendar (naive_at monday 8 0))
    (naive_at monday 9 0) (naive_at monday 17 0) 90 (9, 17)
  = Ok (map (candidate (date (naive_at monday 9 0)) 90) (range2 (fst (9, 17)) (snd (9, 17)))).
Proof.
  apply (X13_one_slot_per_working_hour mem_calendar (no_calendar (naive_at monday 8 0))
           (naive_at monday 9 0) (naive_at monday 17 0) 90 (9, 17)).
  - reflexivity.
  - reflexivity.
  - vm_compute; reflexivity.
  - simpl; lia.
  - simpl; lia.
Defined.

Lemma slots_of_days_weekend (busy_times : list Busy) (day : Z) (days : nat)
    (duration_minutes : Z) (working_hours : Z * Z) :
  (forall d, day <= d < day + Z.of_nat days -> 5 <= weekday d) ->
  slots_of_days busy_times day days duration_minutes working_hours = Ok [].
Proof.
  revert day. induction days as [|n IH]; simpl; intros day H; [reflexivity|].
  destruct (Z.leb_spec 5 (weekday day)) as [Hw | Hw].
  - apply IH. intros d Hd. apply H. lia.
  - specialize (H day). lia.
Qed.

(** X14.  Saturdays and Sundays are passed over before anything else is
    looked at: a range of weekend days gives no slot and raises nothing, for
    any busy times and any working hours. *)
Theorem X14_weekend_gives_no_slot {R : Type} (api : GoogleCalendar R) (w : World R)
    (start_date end_date : datetime) (duration_minutes : Z) (working_hours : Z * Z) :
  (forall d, date start_date <= d <= date end_date -> 5 <= weekday d) ->
  find_available_slots api w start_date end_date duration_minutes working_hours
  = Ok [].
Proof.
  intros H. unfold find_available_slots. apply slots_of_days_weekend.
  intros d Hd. apply H. lia.
Qed.

Lemma X14_weekend_gives_no_slot_witness :
  find_available_slots mem_calendar
    (busy_calendar utc_at (naive_at (ymd 2024 1 6) 8 0))
    (naive_at (ymd 2024 1 6) 9 0) (naive_at (ymd 2024 1 7) 17 0) 60 (9, 99)
  = Ok [].
Proof.
  apply (X14_weekend_gives_no_slot mem_calendar
           (busy_calendar utc_at (naive_at (ymd 2024 1 6) 8 0))
           (naive_at (ymd 2024 1 6) 9 0) (naive_at (ymd 2024 1 7) 17 0) 60 (9, 99)).
  intros d Hd.
  replace (date (naive_at (ymd 2024 1 6) 9 0)) with (ymd 2024 1 6) in Hd by reflexivity.
  replace (date (naive_at (ymd 2024 1 7) 17 0)) with (ymd 2024 1 6 + 1) in Hd by reflexivity.
  assert (C : d = ymd 2024 1 6 \/ d = ymd 2024 1 6 + 1) by lia.
  destruct C as [-> | ->]; vm_compute; discriminate.
Defined.

(** X15.  The overlap test is the one of open intervals: among naive times,
    a slot conflicts exactly when some busy time begins before the slot ends
    and ends after the slot begins; a busy time that ends where the slot
    starts, or starts where it ends, is no conflict. *)
Theorem X15_conflict_is_open_overlap (s e : datetime) (busy_times : list Busy) :
  dt_tz s = None -> dt_tz e = None -> Forall naive_busy busy_times ->
  exists c,
    has_conflict s e busy_times = Ok c /\
    (c = true <->
     exists b, In b busy_times /\
               dt_us s < dt_us (busy_end b) /\ dt_us (busy_start b) < dt_us e).
Proof.
  intros Hs He Hb. exists (existsb (overlaps s e) busy_times).
  split; [now apply has_conflict_naive|].
  rewrite existsb_exists. unfold overlaps.
  split; intros [b [Hin H]]; exists b; (split; [exact Hin|]); lia.
Qed.

Lemma X15_conflict_is_open_overlap_witness :
  exists c,
    has_conflict (naive_at monday 10 0) (naive_at monday 11 0)
      [mk_Busy (naive_at monday 9 0) (naive_at monday 10 0) "a";
       mk_Busy (naive_at monday 11 0) (naive_at monday 12 0) "b"] = Ok c /\
    (c = true <->
     exists b, In b [mk_Busy (naive_at monday 9 0) (naive_at monday 10 0) "a"%string;
                     mk_Busy (naive_at monday 11 0) (naive_at monday 12 0) "b"%string] /\
               dt_us (naive_at monday 10 0) < dt_us (busy_end b) /\
               dt_us (busy_start b) < dt_us (naive_at monday 11 0)).
Proof.
  apply (X15_conflict_is_open_overlap (naive_at monday 10 0) (naive_at monday 11 0)
           [mk_Busy (naive_at monday 9 0) (naive_at monday 10 0) "a";
            mk_Busy (naive_at monday 11 0) (naive_at monday 12 0) "b"]).
  - reflexivity.
  - reflexivity.
  - repeat constructor.
Defined.

(** X16.  A busy time with an aware end, as every timed event of the listing
    has once its string is parsed, makes the search raise TypeError as soon as
    it reaches a working hour: when the first day of the range is a weekday
    and the first working hour is a valid hour before [end_hour]. *)
Theorem X16_aware_busy_time_raises {R : Type} (api : GoogleCalendar R) (w : World R)
    (start_date end_date : datetime) (duration_minutes : Z) (working_hours : Z * Z)
    (b : Busy) (rest : list Busy) (offset : Z) :
  get_calendar_availability api w start_date end_date = b :: rest ->
  dt_tz (busy_end b) = Some offset ->
  date start_date <= date end_date ->
  weekday (date start_date) < 5 ->
  0 <= fst working_hours <= 23 -> fst working_hours < snd working_hours ->
  find_available_slots api w start_date end_date duration_minutes working_hours
  = Raise TypeError.
Proof.
  intros Hb Htz Hd Hw Hh Hlt. unfold find_available_slots. rewrite Hb.
  destruct (Z.to_nat (date end_date - date start_date + 1)) as [|n] eqn:En; [lia|].
  simpl. destruct (Z.leb_spec 5 (weekday (date start_date))); [lia|].
  unfold range2.
  destruct (Z.to_nat (snd working_hours - fst working_hours)) as [|k] eqn:Ek; [lia|].
  simpl. unfold combine_hour.
  replace ((0 <=? fst working_hours + 0) && (fst working_hours + 0 <=? 23))
    with true by lia.
  simpl. unfold dt_lt at 1. simpl. rewrite Htz. reflexivity.
Qed.

Lemma X16_aware_busy_time_raises_witness :
  find_available_slots mem_calendar
    (busy_calendar utc_at (naive_at wednesday 13 30))
    (naive_at wednesday 9 0) (naive_at wednesday 17 0) 60 (9, 17)
  = Raise TypeError.
Proof.
  apply (X16_aware_busy_time_raises mem_calendar
           (busy_calendar utc_at (naive_at wednesday 13 30))
           (naive_at wednesday 9 0) (naive_at wednesday 17 0) 60 (9, 17)
           (mk_Busy (utc_at wednesday 9 0) (utc_at wednesday 17 0) "Busy") [] 0).
  - vm_compute; reflexivity.
  - reflexivity.
  - vm_compute; discriminate.
  - vm_compute; reflexivity.
  - simpl; lia.
  - simpl; lia.
Defined.

(** X17.  All-day events never block a slot: the busy times are those of the
    timed events of the listing, one each and in the order of the listing;
    without a calendar client, or when the listing fails, there are none. *)
Theorem X17_all_day_events_are_no_busy_times {R : Type} (api : GoogleCalendar R)
    (w : World R) (start_date end_date : datetime) :
  match service w with
  | None => get_calendar_availability api w start_date end_date = []
  | Some r =>
      match events_list api r start_date end_date with
      | None => get_calendar_availability api w start_date end_date = []
      | Some events =>
          get_calendar_availability api w start_date end_date
          = map (fun ev => mk_Busy (fromisoformat (ev_start ev))
                                   (fromisoformat (ev_end ev))
                                   (match ev_summary ev with
                                    | Some s => s
                                    | None => "Busy"%string
                                    end))
                (filter is_timed events)
      end
  end.
Proof.
  unfold get_calendar_availability.
  destruct (service w) as [r|]; [|reflexivity].
  destruct (events_list api r start_date end_date) as [events|]; [|reflexivity].
  induction events as [|[[d|o] en su] l IH]; simpl; [reflexivity| |exact IH].
  now rewrite IH.
Qed.


(** ** Scheduling *)

Section SchedulingOrder.

Context {R : Type} (api : GoogleCalendar R).

(** The loop returns at the first ranked day that has a slot. *)
Lemma schedule_in_first (w w' : World R) (task : Task) (cycle_data : CycleData)
    (working_hours : Z * Z) (optimal_dates : list Scored) (r : ScheduleResult) :
  schedule_in api w task cycle_data working_hours optimal_dates = (Ok (Some r), w') ->
  exists before e after best rest,
    optimal_dates = before ++ e :: after /\
    Forall (fun e' => slots_on api w task (fst e') working_hours = Ok []) before /\
    slots_on api w task (fst e) working_hours = Ok (best :: rest) /\
    scheduled_time r = slot_start best /\
    end_time r = slot_end best /\
    cycle_score r = snd e.
Proof.
  induction optimal_dates as [|[d sc] l IH]; simpl; [discriminate|].
  destruct (slots_on api w task d working_hours) as [[|best rest]|ex] eqn:E.
  - intros H. destruct (IH H) as [bf [e [af [b [rs [-> [Hbf Hrest]]]]]]].
    exists ((d, sc) :: bf), e, af, b, rs. split; [reflexivity|].
    split; [constructor; auto | exact Hrest].
  - destruct (create_calendar_event api w task (slot_start best)
                (Some (estimated_duration task))) as [w1 id].
    intros H. injection H as <- <-.
    exists [], (d, sc), l, best, rest. simpl. repeat split; auto.
  - discriminate.
Qed.

(** The slots asked for a ranked day are working-hour slots of that day. *)
Lemma slots_on_shape (w : World R) (task : Task) (optimal_date : datetime)
    (working_hours : Z * Z) (slots : list Slot) :
  slots_on api w task optimal_date working_hours = Ok slots ->
  Forall (fun s =>
            slot_of_working_hour (date optimal_date) (date optimal_date)
              working_hours (estimated_duration task) s) slots.
Proof.
  unfold slots_on. intros H.
  apply bind_Ok in H. destruct H as [s [Hs H]].
  apply bind_Ok in H. destruct H as [e [He H]].
  apply replace_hour_date in Hs. apply replace_hour_date in He.
  unfold find_available_slots in H. rewrite Hs, He in H.
  apply slots_of_days_shape in H. destruct H as [_ H].
  rewrite Forall_forall in *. intros x Hx.
  destruct (H x Hx) as [d [h [Hd Hrest]]]. exists d, h. split; [lia | exact Hrest].
Qed.

End SchedulingOrder.

(** X19.  The result is for the first day of the ranking that has a free
    slot, and for the first slot of that day: the ranked days before it gave
    no slot, and for a valid task no ranked day after it scores higher. *)
Theorem X19_first_ranked_day_with_a_slot {R : Type} (api : GoogleCalendar R)
    (w w' : World R) (task : Task) (cycle_data : CycleData) (days_ahead : Z)
    (working_hours : Z * Z) (r : ScheduleResult) :
  valid_task task ->
  schedule_task_optimally api w task cycle_data days_ahead working_hours
  = (Ok (Some r), w') ->
  exists before e after best rest,
    get_next_optimal_dates w task cycle_data days_ahead = before ++ e :: after /\
    Forall (fun e' => slots_on api w task (fst e') working_hours = Ok []) before /\
    slots_on api w task (fst e) working_hours = Ok (best :: rest) /\
    scheduled_time r = slot_start best /\
    end_time r = slot_end best /\
    cycle_score r = snd e /\
    Forall (fun e' => (snd e' <=? cycle_score r)%float = true) after.
Proof.
  intros Hv H. unfold schedule_task_optimally in H.
  apply schedule_in_first in H.
  destruct H as [bf [e [af [b [rs [E [Hbf [Hs [Hst [Het Hsc]]]]]]]]]].
  exists bf, e, af, b, rs. repeat split; auto.
  assert (S : StronglySorted ranks_before
                (get_next_optimal_dates w task cycle_data days_ahead)).
  { unfold get_next_optimal_dates. apply StronglySorted_firstn.
    now apply sorted_window_sorted. }
  rewrite E in S. rewrite Forall_forall. intros e' He'. rewrite Hsc.
  assert (X : ranks_before e e').
  { clear - S He'. induction bf as [|x bf IH]; simpl in S.
    - inversion S as [|? ? _ Hx]; subst. rewrite Forall_forall in Hx. now apply Hx.
    - inversion S; subst. now apply IH. }
  apply X.
Qed.

Lemma X19_first_ranked_day_with_a_slot_witness :
  exists before e after best rest,
    get_next_optimal_dates (no_calendar (naive_at (ymd 2024 1 13) 13 30))
      (social_task 1) cycle_of_28 14 = before ++ e :: after /\
    Forall (fun e' => slots_on mem_calendar (no_calendar (naive_at (ymd 2024 1 13) 13 30))
                        (social_task 1) (fst e') (9, 17) = Ok []) before /\
    slots_on mem_calendar (no_calendar (naive_at (ymd 2024 1 13) 13 30))
      (social_task 1) (fst e) (9, 17) = Ok (best :: rest) /\
    naive_at (ymd 2024 1 15) 9 0 = slot_start best /\
    naive_at (ymd 2024 1 15) 10 0 = slot_end best /\
    0.81000000000000005%float = snd e /\
    Forall (fun e' => (snd e' <=? 0.81000000000000005)%float = true) after.
Proof.
  apply (X19_first_ranked_day_with_a_slot mem_calendar
           (no_calendar (naive_at (ymd 2024 1 13) 13 30))
           (no_calendar (naive_at (ymd 2024 1 13) 13 30))
           (social_task 1) cycle_of_28 14 (9, 17)
           (mk_ScheduleResult (naive_at (ymd 2024 1 15) 9 0) (naive_at (ymd 2024 1 15) 10 0)
              0.81000000000000005%float "ovulatory" None
              "Scheduled during ovulatory phase for optimal social performance")).
  - unfold valid_task; simpl; lia.
  - vm_compute; reflexivity.
Defined.

(** X20.  The scheduled slot starts on a whole hour within the working hours,
    on a day of the window (today or one of the next [days_ahead - 1] days)
    that is no Saturday or Sunday, and ends [estimated_duration] minutes
    later. *)
Theorem X20_scheduled_slot_in_working_hours {R : Type} (api : GoogleCalendar R)
    (w w' : World R) (task : Task) (cycle_data : CycleData) (days_ahead : Z)
    (working_hours : Z * Z) (r : ScheduleResult) :
  schedule_task_optimally api w task cycle_data days_ahead working_hours
  = (Ok (Some r), w') ->
  exists i h,
    0 <= i < days_ahead /\
    weekday (date (now w) + i) < 5 /\
    fst working_hours <= h < snd working_hours /\
    scheduled_time r
    = mk_datetime ((date (now w) + i) * US_PER_DAY + h * US_PER_HOUR) None /\
    end_time r = add_minutes (scheduled_time r) (estimated_duration task).
Proof.
  intros H. unfold schedule_task_optimally in H.
  apply schedule_in_first in H.
  destruct H as [bf [e [af [b [rs [E [_ [Hs [Hst [Het _]]]]]]]]]].
  assert (Hin : In e (get_next_optimal_dates w task cycle_data days_ahead))
    by (rewrite E; apply in_or_app; right; now left).
  apply In_get_next_optimal_dates in Hin. destruct Hin as [i [Hi [He _]]].
  apply slots_on_shape in Hs. inversion Hs as [|? ? Hb _]; subst.
  destruct Hb as [d [h [Hd [Hw [Hh [_ Hc]]]]]].
  assert (D : d = date (now w) + i) by (rewrite He, date_add_days in Hd; lia).
  exists i, h. rewrite <- D, Hst, Het, Hc. repeat split; auto; lia.
Qed.

Lemma X20_scheduled_slot_in_working_hours_witness :
  exists i h,
    0 <= i < 14 /\
    weekday (date (now (no_calendar (naive_at (ymd 2024 1 13) 13 30))) + i) < 5 /\
    fst (9, 17) <= h < snd (9, 17) /\
    naive_at (ymd 2024 1 15) 9 0
    = mk_datetime ((date (now (no_calendar (naive_at (ymd 2024 1 13) 13 30))) + i)
                   * US_PER_DAY + h * US_PER_HOUR) None /\
    naive_at (ymd 2024 1 15) 10 0
    = add_minutes (naive_at (ymd 2024 1 15) 9 0) (estimated_duration (social_task 1)).
Proof.
  apply (X20_scheduled_slot_in_working_hours mem_calendar
           (no_calendar (naive_at (ymd 2024 1 13) 13 30))
           (no_calendar (naive_at (ymd 2024 1 13) 13 30))
           (social_task 1) cycle_of_28 14 (9, 17)
           (mk_ScheduleResult (naive_at (ymd 2024 1 15) 9 0) (naive_at (ymd 2024 1 15) 10 0)
              0.81000000000000005%float "ovulatory" None
              "Scheduled during ovulatory phase for optimal social performance")).
  vm_compute; reflexivity.
Defined.

(** X21.  With no day to look at ([days_ahead] zero or negative) the call
    returns [None] and touches nothing. *)
Theorem X21_empty_window_gives_none {R : Type} (api : GoogleCalendar R) (w : World R)
    (task : Task) (cycle_data : CycleData) (days_ahead : Z) (working_hours : Z * Z) :
  days_ahead <= 0 ->
  schedule_task_optimally api w task cycle_data days_ahead working_hours = (Ok None, w).
Proof.
  intros H. unfold schedule_task_optimally, get_next_optimal_dates, scored_dates, range.
  replace (Z.to_nat days_ahead) with 0%nat by lia. reflexivity.
Qed.

Lemma X21_empty_window_gives_none_witness :
  schedule_task_optimally mem_calendar (empty_calendar (naive_at wednesday 13 30))
    (social_task 1) cycle_of_28 0 (9, 17)
  = (Ok None, empty_calendar (naive_at wednesday 13 30)).
Proof.
  apply (X21_empty_window_gives_none mem_calendar
           (empty_calendar (naive_at wednesday 13 30)) (social_task 1) cycle_of_28 0 (9, 17)).
  lia.
Defined.

(** X22.  Working hours are passed to [datetime.replace(hour=...)]: when the
    window has a day and one of the two hours is outside 0..23, an end hour of
    24 included (which the slot search on its own accepts), the call raises
    ValueError and creates no event. *)
Theorem X22_hours_outside_0_23_raise {R : Type} (api : GoogleCalendar R) (w : World R)
    (task : Task) (cycle_data : CycleData) (days_ahead : Z) (working_hours : Z * Z) :
  0 < days_ahead ->
  ~ (0 <= fst working_hours <= 23 /\ 0 <= snd working_hours <= 23) ->
  schedule_task_optimally api w task cycle_data days_ahead working_hours
  = (Raise ValueError, w).
Proof.
  intros Hd Hh. unfold schedule_task_optimally.
  pose proof (length_get_next_optimal_dates w task cycle_data days_ahead) as L.
  destruct (get_next_optimal_dates w task cycle_data days_ahead) as [|[d sc] l];
    [cbn [List.length] in L; lia|].
  simpl. unfold slots_on, replace_hour.
  destruct ((0 <=? fst working_hours) && (fst working_hours <=? 23)) eqn:E1;
    [|reflexivity].
  destruct ((0 <=? snd working_hours) && (snd working_hours <=? 23)) eqn:E2;
    [|reflexivity].
  exfalso. apply Hh. lia.
Qed.

Lemma X22_hours_outside_0_23_raise_witness :
  schedule_task_optimally mem_calendar (empty_calendar (naive_at wednesday 13 30))
    (social_task 1) cycle_of_28 14 (9, 24)
  = (Raise ValueError, empty_calendar (naive_at wednesday 13 30)).
Proof.
  apply (X22_hours_outside_0_23_raise mem_calendar
           (empty_calendar (naive_at wednesday 13 30)) (social_task 1) cycle_of_28
           14 (9, 24)).
  - lia.
  - simpl; lia.
Defined.

(** ** The endpoints of main.py *)

Lemma dict_set_same {V : Type} (d : string -> option V) (k : string) (v : V) :
  Main.dict_set d k v k = Some v.
Proof. unfold Main.dict_set. now rewrite String.eqb_refl. Qed.

Lemma dict_set_other {V : Type} (d : string -> option V) (k k' : string) (v : V) :
  k' <> k -> Main.dict_set d k v k' = d k'.
Proof.
  intros H. unfold Main.dict_set. apply String.eqb_neq in H. now rewrite H.
Qed.

(** X23.  Setting up a cycle whose lengths are within the bounds of
    [CycleData] stores it for the user, so that it is what
    [get_user_cycle_data] then gives, leaves the cycles of the other users
    and all tasks as they were, and answers with today's phase; outside the
    bounds the answer is status 400 and nothing is stored. *)
Theorem X23_setup_stores_a_valid_cycle {R : Type} (st : Main.Store) (w : World R)
    (cycle_input : Main.UserCycleInput) :
  let run := Main.setup_user_cycle st w cycle_input in
  Main.user_tasks (fst run) = Main.user_tasks st /\
  match Main.new_CycleData cycle_input with
  | Some cycle_data =>
      valid_cycle_data cycle_data /\
      Main.get_user_cycle_data (fst run) (Main.in_user_id cycle_input)
      = Some cycle_data /\
      (forall u, u <> Main.in_user_id cycle_input ->
                 Main.get_user_cycle_data (fst run) u = Main.get_user_cycle_data st u) /\
      exists info,
        snd run = Main.Answer info /\
        Main.info_phase info
        = CyclePhase_value (get_phase_for_date cycle_data (now w))
  | None =>
      ~ (21 <= Main.in_cycle_length cycle_input <= 35 /\
         3 <= Main.in_period_length cycle_input <= 8) /\
      fst run = st /\ snd run = Main.HTTPException 400
  end.
Proof.
  intros run. unfold run, Main.setup_user_cycle.
  destruct (Main.new_CycleData cycle_input) as [cd|] eqn:E; simpl.
  - split; [reflexivity|]. unfold Main.new_CycleData in E.
    destruct ((21 <=? _) && _ && _ && _) eqn:B; [|discriminate].
    injection E as <-. split; [unfold valid_cycle_data; simpl; lia|].
    split; [apply dict_set_same|].
    split; [intros u Hu; unfold Main.get_user_cycle_data; simpl;
            now apply dict_set_other|].
    eexists. split; [reflexivity|]. simpl.
    unfold get_phase_for_date, get_current_phase.
    now rewrite cycle_day_for_date_floor_mod.
  - split; [reflexivity|]. unfold Main.new_CycleData in E.
    destruct ((21 <=? _) && _ && _ && _) eqn:B; [discriminate|].
    split; [lia|]. split; reflexivity.
Qed.

(** X24.  GET /api/cycle/{user_id}/current answers 404 for a user without
    cycle data.  For a known user its [day_in_cycle] is the number of days
    since the last period started plus one, not reduced by the cycle length,
    while its [phase] is the phase of the reduced cycle day: the two belong
    together exactly during the first cycle after the stored start. *)
Theorem X24_day_in_cycle_is_not_reduced {R : Type} (st : Main.Store) (w : World R)
    (user_id : string) :
  match Main.get_user_cycle_data st user_id with
  | None => Main.get_current_phase_endpoint st w user_id = Main.HTTPException 404
  | Some cycle_data =>
      exists a,
        Main.get_current_phase_endpoint st w user_id = Main.Answer a /\
        Main.cur_phase a = CyclePhase_value (get_phase_for_date cycle_data (now w)) /\
        Main.cur_day_in_cycle a
        = date (now w) - date (last_period_start cycle_data) + 1 /\
        (0 < cycle_length cycle_data ->
         (Main.cur_day_in_cycle a = cycle_day_for_date cycle_data (now w) <->
          0 <= date (now w) - date (last_period_start cycle_data)
          < cycle_length cycle_data))
  end.
Proof.
  unfold Main.get_current_phase_endpoint.
  destruct (Main.get_user_cycle_data st user_id) as [cd|]; [|reflexivity].
  eexists. split; [reflexivity|]. simpl.
  split; [unfold get_phase_for_date, get_current_phase;
          now rewrite cycle_day_for_date_floor_mod|].
  split; [reflexivity|].
  intros HL. rewrite cycle_day_for_date_floor_mod.
  set (d := date (now w) - date (last_period_start cd)).
  pose proof (Z.mod_pos_bound d (cycle_length cd) HL) as B.
  split.
  - intros E. assert (d = d mod cycle_length cd) by lia. lia.
  - intros Hd. rewrite Z.mod_small; lia.
Qed.

(** X25.  POST /api/tasks/schedule never answers 404 or 400: an unknown
    user, a priority outside 1..5, no free slot, and an exception of the
    engine all come out as status 500, with the store and the calendar as
    they were.  An answer means the task was appended to the user's tasks,
    with the scheduled time and the calendar event id of the result, and
    nothing else in the store changed. *)
Theorem X25_schedule_task_statuses {R : Type} (api : GoogleCalendar R)
    (st : Main.Store) (w : World R) (schedule_input : Main.ScheduleTaskInput) :
  let run := Main.schedule_task api st w schedule_input in
  let user_id := Main.sched_user_id schedule_input in
  match snd run with
  | Main.HTTPException s => s = 500 /\ fst run = (st, w)
  | Main.Answer a =>
      Main.get_user_cycle_data st user_id <> None /\
      Main.new_Task (Main.sched_task schedule_input)
      = Some (Main.stored_task (Main.sch_task a)) /\
      Main.stored_scheduled_at (Main.sch_task a)
      = Some (scheduled_time (Main.sch_scheduling a)) /\
      Main.stored_id (Main.sch_task a) = calendar_event_id (Main.sch_scheduling a) /\
      Main.get_user_tasks (fst (fst run)) user_id
      = Main.get_user_tasks st user_id ++ [Main.sch_task a] /\
      (forall u, u <> user_id ->
                 Main.get_user_tasks (fst (fst run)) u = Main.get_user_tasks st u) /\
      Main.user_cycles (fst (fst run)) = Main.user_cycles st
  end.
Proof.
  intros run user_id. unfold run, Main.schedule_task, Main.schedule_task_body.
  fold user_id.
  destruct (Main.get_user_cycle_data st user_id) as [cd|] eqn:Ec;
    [|cbn; auto].
  destruct (Main.new_Task (Main.sched_task schedule_input)) as [task|] eqn:Et;
    [|cbn; auto].
  destruct (schedule_task_optimally api w task cd 14
              (Main.sched_working_hours schedule_input)) as [res w'] eqn:Es.
  unfold schedule_task_optimally in Es.
  destruct res as [[r|]|ex]; cbn.
  - split; [discriminate|]. split; [reflexivity|]. split; [reflexivity|].
    split; [reflexivity|].
    split; [unfold Main.get_user_tasks at 1; cbn; now rewrite dict_set_same|].
    split; [|reflexivity].
    intros u Hu. unfold Main.get_user_tasks at 1; cbn.
    now rewrite dict_set_other.
  - apply schedule_in_no_effect in Es; [|discriminate]. now subst.
  - apply schedule_in_no_effect in Es; [|discriminate]. now subst.
Qed.



(** ** simple_backend.py beside main.py *)

(** X27.  GET /api/cycle/{user_id}/current of simple_backend.py answers 404
    for an unknown user; for a known one with a positive cycle length it
    finds the profile of the phase (no KeyError), its [day_in_cycle] lies in
    1..cycle_length and is the [day_in_cycle] of main.py reduced into the
    cycle, and its phase is the one the manager gives. *)
Theorem X27_simple_day_in_cycle_is_reduced {R : Type} (st : Main.Store)
    (w : World R) (user_id : string) :
  match Main.user_cycles st user_id with
  | None =>
      SimpleApi.get_current_phase_info (Main.user_cycles st) (date (now w)) user_id
      = Some (inr 404)
  | Some cycle_data =>
      0 < cycle_length cycle_data ->
      exists a b,
        SimpleApi.get_current_phase_info (Main.user_cycles st) (date (now w)) user_id
        = Some (inl a) /\
        Main.get_current_phase_endpoint st w user_id = Main.Answer b /\
        1 <= SimpleApi.cur_day_in_cycle a <= cycle_length cycle_data /\
        SimpleApi.cur_day_in_cycle a
        = (Main.cur_day_in_cycle b - 1) mod cycle_length cycle_data + 1 /\
        SimpleApi.cur_phase a = Main.cur_phase b /\
        SimpleApi.cur_energy_level a = Main.cur_energy_level b /\
        SimpleApi.cur_focus_level a = Main.cur_focus_level b
  end.
Proof.
  unfold SimpleApi.get_current_phase_info, Main.get_current_phase_endpoint,
    Main.get_user_cycle_data.
  destruct (Main.user_cycles st user_id) as [cd|]; [|reflexivity].
  intros HL. unfold SimpleBackend.get_current_phase. rewrite simple_backend_table.
  set (day := (date (now w) - date (last_period_start cd)) mod cycle_length cd + 1).
  assert (E : match option_map CyclePhase_value
                      (first_matching_phase PHASE_PROFILES_items day) with
              | Some name => name
              | None => "luteal"%string
              end = CyclePhase_value (phase_of_cycle_day day)).
  { unfold phase_of_cycle_day.
    destruct (first_matching_phase PHASE_PROFILES_items day); reflexivity. }
  rewrite E. unfold get_current_phase, current_cycle_day. fold day.
  pose proof (Z.mod_pos_bound (date (now w) - date (last_period_start cd))
                (cycle_length cd) HL) as B.
  destruct (phase_of_cycle_day day); cbn;
    (eexists; eexists; (split; [reflexivity|]); (split; [reflexivity|]); cbn;
     (split; [unfold day; lia|]);
     (split; [unfold day; do 2 f_equal; lia|]);
     repeat split; reflexivity).
Qed.

(** ** The recommended task types *)

(** X28.  The task types recommended for a phase, by the agent and by the
    endpoints of main.py alike, are the types whose entry in
    [TASK_OPTIMIZATIONS] lists the phase, the types that get the base score
    0.8 in that phase; every phase has at least one. *)
Theorem X28_recommended_task_types (ph : CyclePhase) :
  CycleAgent.get_optimal_tasks_for_phase ph = Main.optimal_tasks ph /\
  Main.optimal_tasks ph <> [] /\
  forall t,
    In (TaskType_value t) (Main.optimal_tasks ph) <->
    exists opt, find_optimization TASK_OPTIMIZATIONS t = Some opt /\
                phase_in ph (optimal_phases opt) = true.
Proof.
  split; [destruct ph; reflexivity|].
  split; [destruct ph; discriminate|].
  intros t. split.
  - intros H. destruct ph, t; cbn in H;
      try (eexists; split; reflexivity);
      repeat (destruct H as [H | H]; [discriminate H|]); contradiction.
  - intros [opt [Hf Hp]].
    destruct t; cbn in Hf; injection Hf as <-;
      destruct ph; cbn in Hp; try discriminate Hp; cbn; tauto.
Qed.

(** ** The endpoints on a run *)

(** Scheduling for a user who has set up no cycle: status 500. *)
Example schedule_for_unknown_user :
  snd (Main.schedule_task mem_calendar empty_store
         (empty_calendar (naive_at wednesday 13 30)) (schedule_input_u 1))
  = Main.HTTPException 500.
Proof. reflexivity. Qed.

(** After the setup the same request is answered, the user has one task, at
    9:00 on 2024-01-17, and the calendar has its event. *)
Example schedule_after_setup :
  let st := fst (Main.setup_user_cycle empty_store
                   (empty_calendar (naive_at wednesday 13 30)) cycle_input_u) in
  let run := Main.schedule_task mem_calendar st
               (empty_calendar (naive_at wednesday 13 30)) (schedule_input_u 1) in
  map Main.stored_scheduled_at (Main.get_user_tasks (fst (fst run)) "u")
  = [Some (naive_at wednesday 9 0)] /\
  snd (Main.get_user_tasks_endpoint (fst (fst run)) "u") = 1 /\
  option_map (@List.length RawEvent) (service (snd (fst run))) = Some 1%nat.
Proof. vm_compute. repeat split; reflexivity. Qed.

(** A priority outside 1..5 is refused by [Task(...)]: status 500, nothing
    stored. *)
Example schedule_with_priority_9 :
  let st := fst (Main.setup_user_cycle empty_store
                   (empty_calendar (naive_at wednesday 13 30)) cycle_input_u) in
  let run := Main.schedule_task mem_calendar st
               (empty_calendar (naive_at wednesday 13 30)) (schedule_input_u 9) in
  snd run = Main.HTTPException 500 /\ Main.get_user_tasks (fst (fst run)) "u" = [].
Proof. vm_compute. split; reflexivity. Qed.

(** On 2024-02-05, 35 days after the stored start of a 28-day cycle, main.py
    reports day 36 and simple_backend.py day 8, both with the follicular
    phase. *)
Example day_in_cycle_after_a_cycle :
  let st := fst (Main.setup_user_cycle empty_store
                   (no_calendar (naive_at (ymd 2024 2 5) 8 0)) cycle_input_u) in
  Main.get_current_phase_endpoint st (no_calendar (naive_at (ymd 2024 2 5) 8 0)) "u"
  = Main.Answer (Main.mk_CurrentPhase "follicular" 36 7 8 9 6
                   ["creative"; "physical"; "strategic"; "communication"; "learning"]%string)
  /\
  SimpleApi.get_current_phase_info (Main.user_cycles st) (ymd 2024 2 5) "u"
  = Some (inl (SimpleApi.mk_CurrentPhase "follicular" 8 7 8)).
Proof. vm_compute. split; reflexivity. Qed.
